(** * krpynews: extraction, classification, id allocation and persistence

    A shallow embedding of [src/krpynews.py].  Python values are modelled
    as the script uses them: [str] as [string] (ASCII), [int] as [Z],
    the keyword [dict] as an association list in insertion order, the set
    of existing ids as a [gset Z], the module-level counter and the Mongo
    collection as fields of an explicit program state.  The third-party
    collaborators (requests, BeautifulSoup, the sentiment pipeline, the
    system clock) are the fields of a type class. *)

From Stdlib Require Import ZArith String Ascii List Lia DecimalString.
From stdpp Require Import base list gmap sets strings.

Local Open Scope string_scope.
Local Open Scope Z_scope.

(** ** Python string operations used by the script *)

Module PyStr.

(** [c.lower()] on an ASCII character. *)
Definition lower_ascii (c : ascii) : ascii :=
  let n := nat_of_ascii c in
  if ((65 <=? n)%nat && (n <=? 90)%nat)%bool then ascii_of_nat (n + 32) else c.

(** [s.lower()] *)
Fixpoint lower (s : string) : string :=
  match s with
  | EmptyString => EmptyString
  | String c s' => String (lower_ascii c) (lower s')
  end.

(** [c.isspace()] for the ASCII range: TAB, LF, VT, FF, CR, FS, GS, RS,
    US and SPACE. *)
Definition is_space (c : ascii) : bool :=
  let n := nat_of_ascii c in
  (((9 <=? n)%nat && (n <=? 13)%nat) || ((28 <=? n)%nat && (n <=? 32)%nat))%bool.

Fixpoint lstrip (s : string) : string :=
  match s with
  | EmptyString => EmptyString
  | String c s' => if is_space c then lstrip s' else s
  end.

Fixpoint rstrip (s : string) : string :=
  match s with
  | EmptyString => EmptyString
  | String c s' =>
      match rstrip s' with
      | EmptyString => if is_space c then EmptyString else String c EmptyString
      | r => String c r
      end
  end.

(** [s.strip()] *)
Definition strip (s : string) : string := rstrip (lstrip s).

(** [s.startswith(p)] *)
Fixpoint startswith (p s : string) : bool :=
  match p, s with
  | EmptyString, _ => true
  | String _ _, EmptyString => false
  | String a p', String b s' => if Ascii.eqb a b then startswith p' s' else false
  end.

(** [needle in hay] *)
Fixpoint contains (needle hay : string) : bool :=
  match hay with
  | EmptyString => startswith needle hay
  | String _ hay' => (startswith needle hay || contains needle hay')%bool
  end.

(** [s.split(sep)] for a one-character separator. *)
Fixpoint split (sep : ascii) (s : string) : list string :=
  match s with
  | EmptyString => [EmptyString]
  | String c s' =>
      if Ascii.eqb c sep then EmptyString :: split sep s'
      else match split sep s' with
           | [] => [String c EmptyString]
           | h :: t => String c h :: t
           end
  end.

(** [s.count(c)] for a one-character argument. *)
Fixpoint count (c : ascii) (s : string) : nat :=
  match s with
  | EmptyString => O
  | String a s' => ((if Ascii.eqb a c then 1 else 0) + count c s')%nat
  end.

(** [str(n)] for a non-negative integer. *)
Definition of_nat (n : nat) : string := NilEmpty.string_of_uint (Nat.to_uint n).

End PyStr.

(** ** Python list operations used by the script *)

Module PyList.

(** [l[:n]]: the first [n] items, or all but the last [-n] when [n] is
    negative. *)
Definition slice_to {A} (l : list A) (n : Z) : list A :=
  if 0 <=? n then take (Z.to_nat n) l
  else take (Z.to_nat (Z.of_nat (length l) + n)) l.

End PyList.

(** ** Keyword classification (lines 48-49 and 75)

    [for category, category_keywords in keywords.items():
         if any(keyword.lower() in title_text.lower() for ...): ...; break]
    selects the first item of the dict whose keyword list has a hit. *)

Definition keyword_hit (title_text : string) (category_keywords : list string) : bool :=
  existsb (fun keyword => PyStr.contains (PyStr.lower keyword) (PyStr.lower title_text))
          category_keywords.

Fixpoint classify (title_text : string) (keywords : list (string * list string))
  : option string :=
  match keywords with
  | [] => None
  | (category, category_keywords) :: rest =>
      if keyword_hit title_text category_keywords then Some category
      else classify title_text rest
  end.

(** ** Data model *)

(** The dict appended to [articles] at lines 65-74. *)
Record article := {
  id : Z;
  Title : string;
  Description : string;
  Date : string;
  Source : string;
  Source_URL : string;
  Category : string;
  Sentiment : string
}.

(** Exceptions the modelled code raises or propagates. *)
Inductive exn :=
| ValueError (msg : string)
| IndexError (msg : string)
| RequestException (msg : string).

(** The error of line 38. *)
Definition ConfigurationError : exn :=
  ValueError "Article elements, class name, and date tag must be provided.".

(** What a call evaluates to; a function that falls off its end returns
    [None]. *)
Inductive pyvalue :=
| PyNone
| PyInt (n : Z).

Inductive month :=
| January | February | March | April | May | June
| July | August | September | October | November | December.

(** The fields of [datetime.now()] that ["%B %d, %Y"] reads. *)
Record datetime := { year : nat; mon : month; day : nat }.

Definition month_name (m : month) : string :=
  match m with
  | January => "January" | February => "February" | March => "March"
  | April => "April" | May => "May" | June => "June"
  | July => "July" | August => "August" | September => "September"
  | October => "October" | November => "November" | December => "December"
  end.

(** [%d]: day of the month, zero-padded to two digits. *)
Definition two_digits (n : nat) : string :=
  if (n <? 10)%nat then "0" ++ PyStr.of_nat n else PyStr.of_nat n.

(** [t.strftime("%B %d, %Y")] *)
Definition strftime_B_d_Y (t : datetime) : string :=
  month_name (mon t) ++ " " ++ two_digits (day t) ++ ", " ++ PyStr.of_nat (year t).

(** Effects visible outside the process, in the order they happen. *)
Inductive event :=
| EvGet (url : string)
| EvNow
| EvSentiment (text : string)
| EvFind (ids : list Z)
| EvInsertMany (docs : list article)
| EvFindOneMax
| EvPrint (line : string).

(** The module-level counter of line 12, the [news] collection, the
    number of clock readings taken so far and the effects so far (oldest
    first). *)
Record state := {
  unique_id_counter : Z;
  collection : list article;
  clock : nat;
  trace : list event
}.

(** The state of a freshly started process over a given collection. *)
Definition process_start (coll : list article) : state :=
  {| unique_id_counter := 0; collection := coll; clock := 0; trace := [] |}.

(** ** A state-and-exception monad for the script's statements *)

Definition M (A : Type) : Type := state -> (exn + A) * state.

Definition ret {A} (a : A) : M A := fun s => (inr a, s).

Definition raise {A} (e : exn) : M A := fun s => (inl e, s).

Definition bind {A B} (m : M A) (k : A -> M B) : M B :=
  fun s => match m s with
           | (inl e, s') => (inl e, s')
           | (inr a, s') => k a s'
           end.

Notation "x <- m ;; k" := (bind m (fun x => k))
  (at level 100, m at next level, right associativity).
Notation "m ;;; k" := (bind m (fun _ => k))
  (at level 100, right associativity).

Definition emit (e : event) : M unit :=
  fun s => (inr tt, {| unique_id_counter := unique_id_counter s;
                       collection := collection s;
                       clock := clock s;
                       trace := (trace s ++ [e])%list |}).

Definition get_counter : M Z := fun s => (inr (unique_id_counter s), s).

Definition set_counter (n : Z) : M unit :=
  fun s => (inr tt, {| unique_id_counter := n;
                       collection := collection s;
                       clock := clock s;
                       trace := trace s |}).

(** [print(line)] *)
Definition print (line : string) : M unit := emit (EvPrint line).

(** [for x in l: acc = body(x, acc)] *)
Fixpoint for_each {A B} (body : A -> B -> M B) (l : list A) (acc : B) : M B :=
  match l with
  | [] => ret acc
  | x :: l' => acc' <- body x acc ;; for_each body l' acc'
  end.

(** [l[i]] for a literal non-negative index. *)
Definition getitem {A} (l : list A) (i : nat) : M A :=
  match l !! i with
  | Some x => ret x
  | None => raise (IndexError "list index out of range")
  end.

(** ** External collaborators

    The libraries the script calls.  Only the fetch is modelled as
    fallible; the parser, the sentiment pipeline, the clock and the store
    are taken to answer. *)

Class Collaborators := {
  response : Type;
  soup : Type;
  tag : Type;
  (** [requests.get(url)]: a response, or the message of the exception. *)
  requests_get : string -> string + response;
  (** [BeautifulSoup(response.content, 'html.parser')] *)
  BeautifulSoup : response -> soup;
  (** [soup.find_all(name)] *)
  find_all : soup -> string -> list tag;
  (** [article.find(name, class_=cls)]; [None] for an argument not given
      or given as [None]. *)
  find : tag -> option string -> option string -> option tag;
  (** [element.text] *)
  text : tag -> string;
  (** [sentiment_analyzer(text)[0]['label']] *)
  sentiment_label : string -> string;
  (** the k-th reading of [datetime.now()] since the process started *)
  datetime_now : nat -> datetime
}.

(** ** The script *)

(** Lines 91-97: the label of the pipeline mapped to the script's three
    values. *)
Definition canonical_sentiment (label : string) : string :=
  if String.eqb label "POSITIVE" then "positive"
  else if String.eqb label "NEGATIVE" then "negative"
  else "neutral".

Section Script.

Context `{Collaborators}.

(** [requests.get(url)], line 34. *)
Definition get (url : string) : M response :=
  emit (EvGet url) ;;;
  match requests_get url with
  | inl msg => raise (RequestException msg)
  | inr r => ret r
  end.

(** [get_sentiment], lines 79-97. *)
Definition get_sentiment (text : string) : M string :=
  emit (EvSentiment text) ;;;
  let label := sentiment_label text in
  ret (canonical_sentiment label).

(** [get_system_date], lines 99-106. *)
Definition get_system_date : M string :=
  fun s =>
    (inr (strftime_B_d_Y (datetime_now (clock s))),
     {| unique_id_counter := unique_id_counter s;
        collection := collection s;
        clock := S (clock s);
        trace := (trace s ++ [EvNow])%list |}).

(** Lines 50-51: the stripped text of the description element, or the
    empty string when there is none. *)
Definition description_of (description_tag : option string) (article_el : tag) : string :=
  match find article_el description_tag None with
  | Some description_element => PyStr.strip (text description_element)
  | None => ""
  end.

(** Lines 50-74: the body run for the first category with a hit. *)
Definition emit_article (url : string) (description_tag : option string)
    (article_el : tag) (title_text category : string) (articles : list article)
  : M (list article) :=
  let description := description_of description_tag article_el in
  date_time <- get_system_date ;;
  let source_url := url in
  source_name <- getitem (PyStr.split "/" url) 2 ;;
  let combined_text := title_text ++ " " ++ description in
  sentiment <- get_sentiment combined_text ;;
  n <- get_counter ;;
  set_counter (n + 1) ;;;
  n' <- get_counter ;;
  ret (articles ++ [ {| id := n';
                        Title := title_text;
                        Description := description;
                        Date := date_time;
                        Source := source_name;
                        Source_URL := source_url;
                        Category := category;
                        Sentiment := sentiment |} ])%list.

(** Lines 43-75: the body of the loop over article elements. *)
Definition process_article (url : string) (keywords : list (string * list string))
    (class_name : string) (title_tag description_tag : option string)
    (article_el : tag) (articles : list article) : M (list article) :=
  match find article_el title_tag (Some class_name) with
  | None => ret articles
  | Some title_element =>
      let title_text := PyStr.strip (text title_element) in
      match classify title_text keywords with
      | None => ret articles
      | Some category =>
          emit_article url description_tag article_el title_text category articles
      end
  end.

(** [extract_news], lines 14-77. *)
Definition extract_news (url : string) (keywords : list (string * list string))
    (max_articles : Z) (article_elements class_name title_tag description_tag
                        date_tag date_class : option string)
  : M (list article) :=
  response <- get url ;;
  let soup := BeautifulSoup response in
  match article_elements, class_name, date_tag with
  | Some article_elements, Some class_name, Some _ =>
      let article_elements := PyList.slice_to (find_all soup article_elements) max_articles in
      for_each (process_article url keywords class_name title_tag description_tag)
               article_elements []
  | _, _, _ => raise ConfigurationError
  end.

(** [collection.find({'id': {'$in': ids}})] *)
Definition collection_find_in (ids : list Z) : M (list article) :=
  emit (EvFind ids) ;;;
  fun s => (inr (filter (fun doc => id doc ∈ ids) (collection s)), s).

(** [collection.insert_many(docs)].  Records are values here: the [_id]
    key that pymongo writes into each dict it inserts is not modelled, so
    a batch is taken to hold distinct dict objects; and the call is taken
    to succeed. *)
Definition insert_many (docs : list article) : M unit :=
  emit (EvInsertMany docs) ;;;
  fun s => (inr tt, {| unique_id_counter := unique_id_counter s;
                       collection := (collection s ++ docs)%list;
                       clock := clock s;
                       trace := trace s |}).

(** The first document of greatest [id]. *)
Fixpoint max_id_doc_of (docs : list article) : option article :=
  match docs with
  | [] => None
  | d :: rest =>
      match max_id_doc_of rest with
      | Some d' => if id d <? id d' then Some d' else Some d
      | None => Some d
      end
  end.

(** [collection.find_one({}, sort=[("id", pymongo.DESCENDING)])] *)
Definition find_one_max : M (option article) :=
  emit EvFindOneMax ;;;
  fun s => (inr (max_id_doc_of (collection s)), s).

(** Lines 120-123: the ids found and the articles kept. *)
Definition existing_ids_of (data coll : list article) : gset Z :=
  list_to_set (id <$> filter (fun doc => id doc ∈ (id <$> data)) coll).

Definition new_articles_of (data coll : list article) : list article :=
  filter (fun a => id a ∉ existing_ids_of data coll) data.

(** [save_to_mongo], lines 108-136, for a store that answers: the errors
    the store calls can raise are not modelled. *)
Definition save_to_mongo (data : list article) : M pyvalue :=
  found <- collection_find_in (id <$> data) ;;
  let existing_ids : gset Z := list_to_set (id <$> found) in
  let new_articles := filter (fun a => id a ∉ existing_ids) data in
  match new_articles with
  | _ :: _ =>
      insert_many new_articles ;;;
      print ("Inserted " ++ PyStr.of_nat (length new_articles)
               ++ " new articles into MongoDB.")
  | [] => print "No new articles to insert. All articles were already present."
  end ;;;
  max_id_doc <- find_one_max ;;
  match max_id_doc with
  | Some d => set_counter (id d)
  | None => set_counter 0
  end ;;;
  ret PyNone.

(** An entry of [urls], lines 147-151. *)
Record site := {
  site_url : string;
  site_article_elements : option string;
  site_class_name : option string;
  site_title_tag : option string;
  site_description_tag : option string;
  site_date_tag : option string;
  site_date_class : option string
}.

(** Lines 153-164, for a given keyword dict and site list. *)
Definition run (keywords : list (string * list string)) (urls : list site)
  : M pyvalue :=
  all_articles <-
    for_each (fun entry all_articles =>
                extracted_articles <-
                  extract_news (site_url entry) keywords 100
                    (site_article_elements entry) (site_class_name entry)
                    (site_title_tag entry) (site_description_tag entry)
                    (site_date_tag entry) (site_date_class entry) ;;
                print ("Extracted " ++ PyStr.of_nat (length extracted_articles)
                         ++ " articles from " ++ site_url entry ++ ".") ;;;
                ret (all_articles ++ extracted_articles)%list)
             urls [] ;;
  save_to_mongo all_articles ;;;
  print ("Saved " ++ PyStr.of_nat (length all_articles) ++ " articles to MongoDB.") ;;;
  ret PyNone.

End Script.

(** The constants of the [__main__] block, lines 139-151. *)
Definition main_keywords : list (string * list string) :=
  [ ("BTC", ["BTC"; "Bitcoin"; "Bitcoin Core"; "Digital Gold"; "Cryptocurrency"]);
    ("ETH", ["ETH"; "Ethereum"; "Smart Contracts"; "Decentralized Finance"]);
    ("SOL", ["SOL"; "Solana"; "Web3"; "Scalability"]);
    ("BNB", ["BNB"; "Binance Coin"; "Binance Smart Chain"; "DeFi"]);
    ("DOGE", ["DOGE"; "Dogecoin"; "Meme Coin"; "Shiba Inu"]) ].

Definition main_urls : list site :=
  [ {| site_url := "https://www.newsbtc.com/news/";
       site_article_elements := Some "article";
       site_class_name := Some "block-article__title";
       site_title_tag := Some "h4";
       site_description_tag := Some "p";
       site_date_tag := Some "span";
       site_date_class := Some "block-article__author" |};
    {| site_url := "https://cryptopotato.com/crypto-news/";
       site_article_elements := Some "article";
       site_class_name := Some "rpwe-title";
       site_title_tag := Some "h3";
       site_description_tag := Some "p";
       site_date_tag := Some "time";
       site_date_class := Some "entry-date" |};
    {| site_url := "https://cryptobriefing.com/news/";
       site_article_elements := Some "section";
       site_class_name := Some "main-news-title";
       site_title_tag := Some "h2";
       site_description_tag := Some "p";
       site_date_tag := Some "time";
       site_date_class := Some "entry-date" |} ].

(** The [__main__] block. *)
Definition main `{Collaborators} : M pyvalue := run main_keywords main_urls.

(** ** A small concrete world

    Pages are lists of fragments; a fragment has a tag name and a list of
    leaf elements, each with a tag name, a class and a text.  It serves to
    run the script on concrete documents. *)

Module Toy.

Record leaf := { leaf_name : string; leaf_class : string; leaf_text : string }.

Inductive node :=
| Fragment (name : string) (children : list leaf)
| Leaf (l : leaf).

Definition node_name (n : node) : string :=
  match n with
  | Fragment name _ => name
  | Leaf l => leaf_name l
  end.

Definition selects (name cls : option string) (l : leaf) : bool :=
  (match name with Some x => String.eqb x (leaf_name l) | None => true end
   && match cls with Some c => String.eqb c (leaf_class l) | None => true end)%bool.

Definition node_find (n : node) (name cls : option string) : option node :=
  match n with
  | Fragment _ children => Leaf <$> List.find (selects name cls) children
  | Leaf _ => None
  end.

Definition node_text (n : node) : string :=
  match n with
  | Fragment _ children => String.concat "" (leaf_text <$> children)
  | Leaf l => leaf_text l
  end.

Definition world (web : string -> string + list node) (label : string -> string)
    (now : nat -> datetime) : Collaborators :=
  {| response := list node;
     soup := list node;
     tag := node;
     requests_get := web;
     BeautifulSoup := fun r => r;
     find_all := fun page name =>
                   List.filter (fun n => String.eqb name (node_name n)) page;
     find := node_find;
     text := node_text;
     sentiment_label := label;
     datetime_now := now |}.

Definition h4 (cls txt : string) : leaf :=
  {| leaf_name := "h4"; leaf_class := cls; leaf_text := txt |}.

Definition p (txt : string) : leaf :=
  {| leaf_name := "p"; leaf_class := ""; leaf_text := txt |}.

(** A page with a Bitcoin article with a description, a decoration
    fragment with no title, an off-topic article and an Ethereum article
    with no description. *)
Definition page1 : list node :=
  [ Fragment "article" [h4 "t" " Bitcoin hits new high "; p "Analysts react"];
    Fragment "article" [p "advertisement"];
    Fragment "article" [h4 "t" "Local weather update"; p "Rain"];
    Fragment "article" [h4 "t" "ethereum upgrade"] ].

(** Two urls serve [page1]; every other url is unreachable.  The second
    url has no scheme: the requests library refuses such a url, so it
    stands for a fetch collaborator other than that library, and serves to
    run line 57 on a url of one segment. *)
Definition web1 (url : string) : string + list node :=
  if String.eqb url "https://news.example/latest" then inr page1
  else if String.eqb url "news.example" then inr page1
  else inl "connection refused".

Definition label1 (txt : string) : string :=
  if PyStr.contains "high" txt then "POSITIVE" else "NEUTRAL".

Definition now1 (k : nat) : datetime :=
  {| year := 2024; mon := March; day := 7 + k |}.

Definition world1 : Collaborators := world web1 label1 now1.

Definition kw1 : list (string * list string) :=
  [("BTC", ["Bitcoin"]); ("ETH", ["Ethereum"])].

Definition extract1 (url : string) (article_elements class_name date_tag : option string)
  : M (list article) :=
  @extract_news world1 url kw1 100 article_elements class_name (Some "h4") (Some "p")
                date_tag None.

(** A second run of the script in a fresh process: the collection holds
    the two records of an earlier run, the site now serves [page1]. *)
Definition site1 : site :=
  {| site_url := "https://news.example/latest";
     site_article_elements := Some "article";
     site_class_name := Some "t";
     site_title_tag := Some "h4";
     site_description_tag := Some "p";
     site_date_tag := Some "time";
     site_date_class := None |}.

Definition old_article (n : Z) (title : string) : article :=
  {| id := n; Title := title; Description := ""; Date := "March 01, 2024";
     Source := "news.example"; Source_URL := "https://news.example/latest";
     Category := "BTC"; Sentiment := "neutral" |}.

Definition old_store : list article :=
  [old_article 1 "Bitcoin slips"; old_article 2 "Bitcoin recovers"].

(** The last fragment of [page1]: a title with a category, no
    description element. *)
Definition eth_fragment : node := Fragment "article" [h4 "t" "ethereum upgrade"].

(** What the extraction of [page1] returns in a fresh process over an
    empty collection, and the state it leaves. *)
Definition out1 : list article :=
  [ {| id := 1; Title := "Bitcoin hits new high"; Description := "Analysts react";
       Date := "March 07, 2024"; Source := "news.example";
       Source_URL := "https://news.example/latest"; Category := "BTC";
       Sentiment := "positive" |};
    {| id := 2; Title := "ethereum upgrade"; Description := "";
       Date := "March 08, 2024"; Source := "news.example";
       Source_URL := "https://news.example/latest"; Category := "ETH";
       Sentiment := "neutral" |} ].

Definition after1 : state :=
  {| unique_id_counter := 2; collection := []; clock := 2;
     trace := [ EvGet "https://news.example/latest"; EvNow;
                EvSentiment "Bitcoin hits new high Analysts react"; EvNow;
                EvSentiment "ethereum upgrade " ] |}.


(** A site that cannot be reached. *)
Definition site_down : site :=
  {| site_url := "https://unreachable.example/";
     site_article_elements := Some "article";
     site_class_name := Some "t";
     site_title_tag := Some "h4";
     site_description_tag := Some "p";
     site_date_tag := Some "time";
     site_date_class := None |}.

(** A web that answers as the requests library can: for the url with a
    scheme only. *)
Definition web2 (url : string) : string + list node :=
  if String.eqb url "https://news.example/latest" then inr page1
  else inl "connection refused".

Definition world2 : Collaborators := world web2 label1 now1.

(** The second record of [out1]. *)
Definition eth_record : article :=
  {| id := 2; Title := "ethereum upgrade"; Description := "";
     Date := "March 08, 2024"; Source := "news.example";
     Source_URL := "https://news.example/latest"; Category := "ETH";
     Sentiment := "neutral" |}.

End Toy.

(** ** Specification-level notions *)

(** [kw] occurs in [txt] up to letter case: some slice of [txt] and [kw]
    have the same case-folded form. *)
Definition case_insensitive_substring (kw txt : string) : Prop :=
  exists pre mid post,
    txt = pre ++ mid ++ post /\ PyStr.lower mid = PyStr.lower kw.

(** Some keyword of the list occurs in [txt] up to letter case. *)
Definition category_matches (txt : string) (kws : list string) : Prop :=
  exists kw, In kw kws /\ case_insensitive_substring kw txt.

(** The title text and category of a fragment that yields a record: its
    title element is found and its title has a category. *)
Definition qualifying `{Collaborators} (keywords : list (string * list string))
    (class_name : string) (title_tag : option string) (article_el : tag)
  : option (string * string) :=
  match find article_el title_tag (Some class_name) with
  | None => None
  | Some title_element =>
      let title_text := PyStr.strip (text title_element) in
      match classify title_text keywords with
      | None => None
      | Some category => Some (title_text, category)
      end
  end.

(** The record appended for a qualifying fragment in state [s], when the
    url has [src] as its third segment, and the state it leaves. *)
Definition emitted `{Collaborators} (url : string) (description_tag : option string)
    (article_el : tag) (title_text category src : string) (s : state) : article :=
  {| id := unique_id_counter s + 1;
     Title := title_text;
     Description := description_of description_tag article_el;
     Date := strftime_B_d_Y (datetime_now (clock s));
     Source := src;
     Source_URL := url;
     Category := category;
     Sentiment := canonical_sentiment
                    (sentiment_label
                       (title_text ++ " " ++ description_of description_tag article_el)) |}.

Definition after_emit `{Collaborators} (description_tag : option string)
    (article_el : tag) (title_text : string) (s : state) : state :=
  {| unique_id_counter := unique_id_counter s + 1;
     collection := collection s;
     clock := S (clock s);
     trace := (trace s ++ [EvNow; EvSentiment
                             (title_text ++ " "
                                ++ description_of description_tag article_el)])%list |}.

(** The state after an event has been recorded. *)
Definition logged (e : event) (s : state) : state :=
  {| unique_id_counter := unique_id_counter s;
     collection := collection s;
     clock := clock s;
     trace := (trace s ++ [e])%list |}.

(** The counter value the end of save_to_mongo computes from a
    collection. *)
Definition counter_of (coll : list article) : Z :=
  match max_id_doc_of coll with
  | Some d => id d
  | None => 0
  end.

(** The store operations and output of one call of save_to_mongo on the
    batch [data] whose new partition is [new]. *)
Definition persist_events (data new : list article) : list event :=
  (EvFind (id <$> data)
   :: match new with
      | [] => [EvPrint "No new articles to insert. All articles were already present."]
      | _ :: _ => [EvInsertMany new;
                   EvPrint ("Inserted " ++ PyStr.of_nat (length new)
                              ++ " new articles into MongoDB.")]
      end ++ [EvFindOneMax])%list.

(** The state save_to_mongo leaves. *)
Definition after_save (data : list article) (s : state) : state :=
  let new := new_articles_of data (collection s) in
  {| unique_id_counter := counter_of (collection s ++ new);
     collection := (collection s ++ new)%list;
     clock := clock s;
     trace := (trace s ++ persist_events data new)%list |}.

(** *** Extraction as a list comprehension *)

(** The elements of a list that yield a record, in order, each with its
    title text and category. *)
Definition qualifying_elements `{Collaborators} (keywords : list (string * list string))
    (class_name : string) (title_tag : option string) (l : list tag)
  : list (tag * (string * string)) :=
  omap (fun a => pair a <$> qualifying keywords class_name title_tag a) l.

(** The record of the [i]-th qualifying element of a run that starts with
    the counter at [counter] and [clk] clock readings taken. *)
Definition record_at `{Collaborators} (url : string) (description_tag : option string)
    (src : string) (counter : Z) (clk : nat) (i : nat) (q : tag * (string * string))
  : article :=
  {| id := counter + Z.of_nat i + 1;
     Title := fst (snd q);
     Description := description_of description_tag (fst q);
     Date := strftime_B_d_Y (datetime_now (clk + i));
     Source := src;
     Source_URL := url;
     Category := snd (snd q);
     Sentiment := canonical_sentiment
                    (sentiment_label
                       (fst (snd q) ++ " " ++ description_of description_tag (fst q))) |}.

(** The effects of producing the record of a qualifying element. *)
Definition record_events `{Collaborators} (description_tag : option string)
    (q : tag * (string * string)) : list event :=
  [EvNow; EvSentiment (fst (snd q) ++ " " ++ description_of description_tag (fst q))].

(** The state after the records of the qualifying elements [quals] have
    been produced. *)
Definition after_records `{Collaborators} (description_tag : option string)
    (quals : list (tag * (string * string))) (s : state) : state :=
  {| unique_id_counter := unique_id_counter s + Z.of_nat (length quals);
     collection := collection s;
     clock := (clock s + length quals)%nat;
     trace := (trace s ++ concat (record_events description_tag <$> quals))%list |}.

(** *** The loop over the sites *)

(** The body of the loop of lines 154-160. *)
Definition extract_site `{Collaborators} (keywords : list (string * list string))
    (entry : site) (all_articles : list article) : M (list article) :=
  extracted_articles <-
    extract_news (site_url entry) keywords 100
      (site_article_elements entry) (site_class_name entry)
      (site_title_tag entry) (site_description_tag entry)
      (site_date_tag entry) (site_date_class entry) ;;
  print ("Extracted " ++ PyStr.of_nat (length extracted_articles)
           ++ " articles from " ++ site_url entry ++ ".") ;;;
  ret (all_articles ++ extracted_articles)%list.

(** An entry with the three mandatory fields and a url of three segments
    or more. *)
Definition well_configured (entry : site) : Prop :=
  is_Some (site_article_elements entry)
  /\ is_Some (site_class_name entry)
  /\ is_Some (site_date_tag entry)
  /\ (2 <= PyStr.count "/" (site_url entry))%nat.

(** Why the extraction of a site has raised [e]: its fetch failed, or a
    mandatory field is unset, or its url has fewer than three segments. *)
Definition site_fails `{Collaborators} (entry : site) (e : exn) : Prop :=
  (exists msg, requests_get (site_url entry) = inl msg /\ e = RequestException msg)
  \/ (e = ConfigurationError
      /\ (site_article_elements entry = None \/ site_class_name entry = None
          \/ site_date_tag entry = None))
  \/ (e = IndexError "list index out of range"
      /\ (PyStr.count "/" (site_url entry) < 2)%nat).

(** The counter is at or above every id of the collection. *)
Definition counter_covers (s : state) : Prop :=
  forall d, d ∈ collection s -> id d <= unique_id_counter s.

(** *** The fetch of the requests library *)

(** What the script relies on from [requests.get], which is not part of
    the repository: it answers only for a url with a scheme followed by
    two slashes and a host (it raises MissingSchema, InvalidSchema or
    InvalidURL otherwise), so every url it answers for has at least two
    slashes. *)
Definition fetch_needs_two_slashes `{Collaborators} : Prop :=
  forall (url : string) (resp : response),
    requests_get url = inr resp -> (2 <= PyStr.count "/" url)%nat.

(** *** Store operations in the trace *)

(** The events that are operations on the collection. *)
Definition store_event (ev : event) : bool :=
  match ev with
  | EvFind _ | EvInsertMany _ | EvFindOneMax => true
  | _ => false
  end.

(** From [s] to [s'] the collection has not changed and no operation on
    it has been recorded. *)
Definition no_store_access (s s' : state) : Prop :=
  collection s' = collection s
  /\ exists evs, trace s' = (trace s ++ evs)%list
                 /\ Forall (fun ev => store_event ev = false) evs.

(** A site whose extraction raises in every state: its fetch fails, or
    one of its mandatory fields is unset. *)
Definition certain_to_fail `{Collaborators} (entry : site) : Prop :=
  (exists msg, requests_get (site_url entry) = inl msg)
  \/ site_article_elements entry = None
  \/ site_class_name entry = None
  \/ site_date_tag entry = None.

(** ** Facts about the string operations *)

Lemma lower_app (a b : string) :
  PyStr.lower (a ++ b) = PyStr.lower a ++ PyStr.lower b.
Proof. induction a as [|c a IH]; simpl; [reflexivity | now rewrite IH]. Qed.

Lemma lower_split (t a b : string) :
  PyStr.lower t = a ++ b ->
  exists t1 t2, t = t1 ++ t2 /\ PyStr.lower t1 = a /\ PyStr.lower t2 = b.
Proof.
  revert t. induction a as [|c a IH]; intros t Ht.
  - exists EmptyString, t. auto.
  - destruct t as [|d t]; simpl in Ht; [discriminate|].
    injection Ht as Hc Ht. destruct (IH _ Ht) as (t1 & t2 & -> & H1 & H2).
    exists (String d t1), t2. simpl. rewrite Hc, H1. auto.
Qed.

Lemma startswith_spec (p s : string) :
  PyStr.startswith p s = true <-> exists post, s = p ++ post.
Proof.
  revert s. induction p as [|a p IH]; intros s; simpl.
  - split; [exists s; reflexivity | reflexivity].
  - destruct s as [|b s].
    + split; [discriminate | intros [post Hp]; discriminate].
    + destruct (Ascii.eqb_spec a b) as [->|Hne].
      * rewrite IH. split; intros [post Hp]; exists post.
        -- now rewrite Hp.
        -- now injection Hp.
      * split; [discriminate | intros [post Hp]; injection Hp; congruence].
Qed.

Lemma contains_spec (needle hay : string) :
  PyStr.contains needle hay = true <-> exists pre post, hay = pre ++ needle ++ post.
Proof.
  induction hay as [|c hay IH]; simpl.
  - rewrite startswith_spec. split.
    + intros [post Hp]. now exists EmptyString, post.
    + intros (pre & post & Hp). destruct pre; [now exists post | discriminate].
  - rewrite orb_true_iff, IH, startswith_spec. split.
    + intros [[post Hp] | (pre & post & Hp)].
      * now exists EmptyString, post.
      * exists (String c pre), post. simpl. now rewrite Hp.
    + intros (pre & post & Hp). destruct pre as [|d pre]; simpl in Hp.
      * left. now exists post.
      * right. injection Hp as _ Hp. now exists pre, post.
Qed.

Lemma contains_lower_spec (kw txt : string) :
  PyStr.contains (PyStr.lower kw) (PyStr.lower txt) = true
  <-> case_insensitive_substring kw txt.
Proof.
  rewrite contains_spec. split.
  - intros (pre & post & Hp).
    destruct (lower_split _ _ _ Hp) as (t1 & t2 & -> & _ & H2).
    destruct (lower_split _ _ _ H2) as (t3 & t4 & -> & H3 & _).
    now exists t1, t3, t4.
  - intros (pre & mid & post & -> & Hm).
    exists (PyStr.lower pre), (PyStr.lower post).
    now rewrite !lower_app, Hm.
Qed.

Lemma keyword_hit_spec (txt : string) (kws : list string) :
  keyword_hit txt kws = true <-> category_matches txt kws.
Proof.
  unfold keyword_hit, category_matches. rewrite existsb_exists.
  split; intros (kw & Hin & Hk); exists kw; split; auto; now apply contains_lower_spec.
Qed.

Lemma split_length (sep : ascii) (s : string) :
  length (PyStr.split sep s) = S (PyStr.count sep s).
Proof.
  induction s as [|c s IH]; simpl; [reflexivity|].
  destruct (Ascii.eqb c sep); simpl.
  - now rewrite IH.
  - destruct (PyStr.split sep s); simpl in *; [discriminate | exact IH].
Qed.

Lemma split_third (url : string) :
  (2 <= PyStr.count "/" url)%nat <-> is_Some (PyStr.split "/" url !! 2%nat).
Proof.
  rewrite lookup_lt_is_Some, split_length. lia.
Qed.

Example lower_ex : PyStr.lower "BitCoin Core 2" = "bitcoin core 2".
Proof. reflexivity. Qed.

Example strip_ex : PyStr.strip "  Bitcoin hits
 " = "Bitcoin hits".
Proof. reflexivity. Qed.

Example contains_ex :
  PyStr.contains "coin" "bitcoin" = true /\ PyStr.contains "Coin" "bitcoin" = false
  /\ PyStr.contains "" "bitcoin" = true.
Proof. repeat split. Qed.

Example split_ex :
  PyStr.split "/" "https://www.newsbtc.com/news/"
  = ["https:"; ""; "www.newsbtc.com"; "news"; ""]
  /\ PyStr.split "/" "" = [""].
Proof. split; reflexivity. Qed.

Example slice_to_ex :
  PyList.slice_to [1; 2; 3] 2 = [1; 2] /\ PyList.slice_to [1; 2; 3] 100 = [1; 2; 3]
  /\ PyList.slice_to [1; 2; 3] (-1) = [1; 2] /\ PyList.slice_to [1; 2; 3] (-5) = [].
Proof. repeat split. Qed.

Example strftime_ex :
  strftime_B_d_Y {| year := 2024; mon := March; day := 7 |} = "March 07, 2024".
Proof. reflexivity. Qed.

Example toy_extract :
  Toy.extract1 "https://news.example/latest" (Some "article") (Some "t") (Some "time")
               (process_start [])
  = (inr Toy.out1, Toy.after1).
Proof. vm_compute. reflexivity. Qed.

(** ** Keyword classification *)

Lemma classify_Some (txt : string) (keywords : list (string * list string)) (c : string) :
  classify txt keywords = Some c <->
  exists before kws after,
    keywords = (before ++ (c, kws) :: after)%list /\
    category_matches txt kws /\
    Forall (fun item => ~ category_matches txt (snd item)) before.
Proof.
  induction keywords as [|[c0 kws0] rest IH]; simpl.
  - split; [discriminate|]. intros (before & kws & after & Hk & _).
    destruct before; discriminate.
  - destruct (keyword_hit txt kws0) eqn:Hhit.
    + apply keyword_hit_spec in Hhit. split.
      * intros [= <-]. exists [], kws0, rest. auto.
      * intros (before & kws & after & Hk & Hm & Hb).
        destruct before as [|[c1 kws1] before]; simpl in Hk.
        -- congruence.
        -- injection Hk as -> -> _. inversion Hb; subst. simpl in *. tauto.
    + assert (Hno : ~ category_matches txt kws0).
      { rewrite <- keyword_hit_spec. congruence. }
      rewrite IH. split.
      * intros (before & kws & after & -> & Hm & Hb).
        exists ((c0, kws0) :: before), kws, after. auto.
      * intros (before & kws & after & Hk & Hm & Hb).
        destruct before as [|[c1 kws1] before]; simpl in Hk.
        -- injection Hk as -> -> _. tauto.
        -- injection Hk as -> -> ->. inversion Hb; subst.
           now exists before, kws, after.
Qed.

Lemma classify_None (txt : string) (keywords : list (string * list string)) :
  classify txt keywords = None <->
  Forall (fun item => ~ category_matches txt (snd item)) keywords.
Proof.
  induction keywords as [|[c0 kws0] rest IH]; simpl.
  - split; auto.
  - destruct (keyword_hit txt kws0) eqn:Hhit.
    + apply keyword_hit_spec in Hhit. split; [discriminate|].
      intros Hb. inversion Hb; subst. simpl in *. tauto.
    + rewrite IH. split.
      * intros Hb. constructor; [|exact Hb]. simpl.
        rewrite <- keyword_hit_spec. congruence.
      * intros Hb. now inversion Hb.
Qed.

(** C4: classification checks the categories in the map's order and
    returns the first one with a keyword that is a case-insensitive
    substring of the text, and no category when there is none; on
    [{"BTC": ["Bitcoin"], "ETH": ["Ethereum"]}] and
    ["Bitcoin and Ethereum surge"] it returns ["BTC"]. *)
Theorem classify_first_match (txt : string) (keywords : list (string * list string)) :
  (forall c,
      classify txt keywords = Some c <->
      exists before kws after,
        keywords = (before ++ (c, kws) :: after)%list /\
        category_matches txt kws /\
        Forall (fun item => ~ category_matches txt (snd item)) before)
  /\ (classify txt keywords = None <->
      Forall (fun item => ~ category_matches txt (snd item)) keywords)
  /\ classify "Bitcoin and Ethereum surge" [("BTC", ["Bitcoin"]); ("ETH", ["Ethereum"])]
     = Some "BTC".
Proof.
  split; [|split].
  - intros c. apply classify_Some.
  - apply classify_None.
  - reflexivity.
Qed.

(** ** One article element *)

Section Extraction.

Context `{Collaborators}.

Variables (url : string) (keywords : list (string * list string)).
Variables (class_name : string) (title_tag description_tag : option string).

Local Abbreviation step := (process_article url keywords class_name title_tag description_tag).
Local Abbreviation qual := (qualifying keywords class_name title_tag).

Lemma process_article_skip (article_el : tag) (articles : list article) (s : state) :
  qual article_el = None ->
  step article_el articles s = (inr articles, s).
Proof.
  unfold qualifying, process_article.
  destruct (find article_el title_tag (Some class_name)); [|reflexivity].
  simpl. destruct (classify _ keywords); [discriminate | reflexivity].
Qed.

Lemma process_article_emit (article_el : tag) (articles : list article) (s : state)
    (title_text category src : string) :
  qual article_el = Some (title_text, category) ->
  PyStr.split "/" url !! 2%nat = Some src ->
  step article_el articles s
  = (inr (articles ++ [emitted url description_tag article_el title_text category src s])%list,
     after_emit description_tag article_el title_text s).
Proof.
  unfold qualifying, process_article. intros Hq Hsrc.
  destruct (find article_el title_tag (Some class_name)); [|discriminate].
  simpl in *. destruct (classify _ keywords); [|discriminate].
  injection Hq as <- <-.
  unfold emit_article, bind, get_system_date, getitem. simpl.
  rewrite Hsrc. unfold emitted, after_emit. simpl.
  rewrite <- app_assoc. reflexivity.
Qed.

Lemma process_article_fail (article_el : tag) (articles : list article) (s : state)
    (title_text category : string) :
  qual article_el = Some (title_text, category) ->
  PyStr.split "/" url !! 2%nat = None ->
  step article_el articles s
  = (inl (IndexError "list index out of range"),
     {| unique_id_counter := unique_id_counter s;
        collection := collection s;
        clock := S (clock s);
        trace := (trace s ++ [EvNow])%list |}).
Proof.
  unfold qualifying, process_article. intros Hq Hsrc.
  destruct (find article_el title_tag (Some class_name)); [|discriminate].
  simpl in *. destruct (classify _ keywords); [|discriminate].
  injection Hq as <- <-.
  unfold emit_article, bind, get_system_date, getitem. simpl.
  rewrite Hsrc. reflexivity.
Qed.

(** ** The loop over the article elements *)

Lemma for_each_cons {A B} (body : A -> B -> M B) (x : A) (l : list A) (acc : B) (s : state) :
  for_each body (x :: l) acc s
  = match body x acc s with
    | (inl e, s') => (inl e, s')
    | (inr acc', s') => for_each body l acc' s'
    end.
Proof. reflexivity. Qed.

(** With a url of three segments or more no element fails: the i-th
    record appended gets the i-th next id and the i-th next clock
    reading. *)
Lemma loop_good (src : string) (l : list tag) :
  PyStr.split "/" url !! 2%nat = Some src ->
  forall (acc : list article) (s : state),
  exists news s',
    for_each step l acc s = (inr (acc ++ news)%list, s')
    /\ unique_id_counter s' = unique_id_counter s + Z.of_nat (length news)
    /\ clock s' = (clock s + length news)%nat
    /\ collection s' = collection s
    /\ (forall (i : nat) (r : article), news !! i = Some r ->
          id r = unique_id_counter s + Z.of_nat i + 1
          /\ Date r = strftime_B_d_Y (datetime_now (clock s + i))
          /\ Source r = src /\ Source_URL r = url).
Proof.
  intros Hsrc. induction l as [|a l' IH]; intros acc s.
  - exists [], s. simpl. rewrite app_nil_r, Nat.add_0_r, Z.add_0_r.
    split; [reflexivity|]. split; [reflexivity|]. split; [reflexivity|].
    split; [reflexivity|]. intros i r Hi. discriminate.
  - rewrite for_each_cons. destruct (qual a) as [[title_text category]|] eqn:Hq.
    + rewrite (process_article_emit _ _ _ _ _ _ Hq Hsrc).
      destruct (IH (acc ++ [emitted url description_tag a title_text category src s])%list
                   (after_emit description_tag a title_text s))
        as (news & s' & Hrun & Hc & Hk & Hcoll & Hrec).
      exists (emitted url description_tag a title_text category src s :: news), s'.
      rewrite Hrun, Hc, Hk, Hcoll, <- app_assoc. simpl.
      split; [reflexivity|]. split; [lia|]. split; [lia|]. split; [reflexivity|].
      intros [|j] r Hi; simpl in Hi.
      * injection Hi as <-. simpl. rewrite Nat.add_0_r. repeat split; lia.
      * destruct (Hrec j r Hi) as (Hid & Hdate & Hs & Hu). simpl in *.
        rewrite Hdate. replace (clock s + S j)%nat with (S (clock s + j)) by lia.
        repeat split; auto; lia.
    + rewrite (process_article_skip _ _ _ Hq). apply IH.
Qed.

(** With a shorter url the loop either meets no qualifying element and
    changes nothing, or stops at the first one, before any id is taken. *)
Lemma loop_bad (l : list tag) :
  PyStr.split "/" url !! 2%nat = None ->
  forall (acc : list article) (s : state),
    (for_each step l acc s = (inr acc, s)
     /\ Forall (fun a => qual a = None) l)
    \/ (exists s',
          for_each step l acc s = (inl (IndexError "list index out of range"), s')
          /\ unique_id_counter s' = unique_id_counter s
          /\ collection s' = collection s
          /\ Exists (fun a => qual a <> None) l).
Proof.
  intros Hsrc. induction l as [|a l' IH]; intros acc s.
  - left. split; [reflexivity | constructor].
  - rewrite for_each_cons. destruct (qual a) as [[title_text category]|] eqn:Hq.
    + rewrite (process_article_fail _ _ _ _ _ Hq Hsrc). right.
      eexists. repeat split. left. congruence.
    + rewrite (process_article_skip _ _ _ Hq).
      destruct (IH acc s) as [[Hrun Hall] | (s' & Hrun & Hc & Hcoll & Hex)].
      * left. split; [exact Hrun | now constructor].
      * right. exists s'. repeat split; auto.
Qed.

(** With a url of three segments or more, every qualifying element of
    the list has its record in the output. *)
Lemma loop_good_records (src : string) (l : list tag) :
  PyStr.split "/" url !! 2%nat = Some src ->
  forall (acc out : list article) (s s' : state),
    for_each step l acc s = (inr out, s') ->
    forall (a : tag) (title_text category : string),
      a ∈ l ->
      qual a = Some (title_text, category) ->
      exists r, r ∈ out
                /\ Title r = title_text
                /\ Category r = category
                /\ Description r = description_of description_tag a
                /\ Source r = src.
Proof.
  intros Hsrc. induction l as [|a0 l' IH]; intros acc out s s' Hrun a t c Ha Hq.
  - inversion Ha.
  - rewrite for_each_cons in Hrun.
    destruct (qual a0) as [[t0 c0]|] eqn:Hq0.
    + rewrite (process_article_emit _ _ _ _ _ _ Hq0 Hsrc) in Hrun.
      apply elem_of_cons in Ha as [->|Ha].
      * rewrite Hq0 in Hq. injection Hq as -> ->.
        destruct (loop_good src l' Hsrc
                    (acc ++ [emitted url description_tag a0 t c src s])%list
                    (after_emit description_tag a0 t s))
          as (news & s1 & Hrun1 & _).
        rewrite Hrun1 in Hrun. injection Hrun as <- <-.
        exists (emitted url description_tag a0 t c src s).
        split; [|simpl; auto].
        rewrite !elem_of_app. left. right. now left.
      * exact (IH _ _ _ _ Hrun a t c Ha Hq).
    + rewrite (process_article_skip _ _ _ Hq0) in Hrun.
      apply elem_of_cons in Ha as [->|Ha]; [congruence|].
      exact (IH _ _ _ _ Hrun a t c Ha Hq).
Qed.

End Extraction.

(** ** extract_news *)

Section ExtractNews.

Context `{Collaborators}.

Variables (url : string) (keywords : list (string * list string)) (max_articles : Z).
Variables (title_tag description_tag : option string).

Lemma extract_news_unfold (article_elements class_name date_tag date_class : option string)
    (s : state) :
  extract_news url keywords max_articles article_elements class_name title_tag
               description_tag date_tag date_class s
  = match requests_get url with
    | inl msg => (inl (RequestException msg), logged (EvGet url) s)
    | inr resp =>
        match article_elements, class_name, date_tag with
        | Some ae, Some cn, Some _ =>
            for_each (process_article url keywords cn title_tag description_tag)
                     (PyList.slice_to (find_all (BeautifulSoup resp) ae) max_articles)
                     [] (logged (EvGet url) s)
        | _, _, _ => (inl ConfigurationError, logged (EvGet url) s)
        end
    end.
Proof.
  unfold extract_news, get, bind, emit, logged. simpl.
  destruct (requests_get url) as [msg|resp]; simpl; [reflexivity|].
  destruct article_elements, class_name, date_tag; reflexivity.
Qed.

Lemma qualifying_intro (class_name : string) (article_el title_element : tag)
    (category : string) :
  find article_el title_tag (Some class_name) = Some title_element ->
  classify (PyStr.strip (text title_element)) keywords = Some category ->
  qualifying keywords class_name title_tag article_el
  = Some (PyStr.strip (text title_element), category).
Proof. unfold qualifying. intros -> Hc. simpl. now rewrite Hc. Qed.

(** The loop never raises the error of line 38. *)
Lemma loop_no_configuration_error (class_name : string) (l : list tag)
    (acc : list article) (s s' : state) :
  for_each (process_article url keywords class_name title_tag description_tag) l acc s
  <> (inl ConfigurationError, s').
Proof.
  destruct (PyStr.split "/" url !! 2%nat) as [src|] eqn:Hsrc.
  - destruct (loop_good url keywords class_name title_tag description_tag src l Hsrc acc s)
      as (news & s1 & Hrun & _). rewrite Hrun. discriminate.
  - destruct (loop_bad url keywords class_name title_tag description_tag l Hsrc acc s)
      as [[Hrun _] | (s1 & Hrun & _)]; rewrite Hrun; discriminate.
Qed.

(** The loop advances the counter by the number of records it appends,
    and not at all when it raises. *)
Lemma loop_counter (class_name : string) (l : list tag) (acc : list article) (s : state) :
  match for_each (process_article url keywords class_name title_tag description_tag) l acc s
  with
  | (inr out, s') =>
      exists news, out = (acc ++ news)%list
                   /\ unique_id_counter s' = unique_id_counter s + Z.of_nat (length news)
  | (inl _, s') => unique_id_counter s' = unique_id_counter s
  end.
Proof.
  destruct (PyStr.split "/" url !! 2%nat) as [src|] eqn:Hsrc.
  - destruct (loop_good url keywords class_name title_tag description_tag src l Hsrc acc s)
      as (news & s1 & Hrun & Hc & _). rewrite Hrun. now exists news.
  - destruct (loop_bad url keywords class_name title_tag description_tag l Hsrc acc s)
      as [[Hrun _] | (s1 & Hrun & Hc & _)]; rewrite Hrun; [|exact Hc].
    exists []. rewrite app_nil_r. simpl. split; [reflexivity | lia].
Qed.

(** C5, as amended: extract_news fails with the configuration error if,
    and only if, the fetch succeeded and one of the article selector, the
    title class name and the date selector is unset; with all three
    provided it never raises that error. *)
Theorem configuration_error_iff (article_elements class_name date_tag date_class : option string)
    (s : state) :
  ((exists s', extract_news url keywords max_articles article_elements class_name title_tag
                            description_tag date_tag date_class s
               = (inl ConfigurationError, s'))
   <-> (exists resp, requests_get url = inr resp)
       /\ (article_elements = None \/ class_name = None \/ date_tag = None))
  /\ (is_Some article_elements -> is_Some class_name -> is_Some date_tag ->
      forall s', extract_news url keywords max_articles article_elements class_name title_tag
                              description_tag date_tag date_class s
                 <> (inl ConfigurationError, s')).
Proof.
  rewrite extract_news_unfold. split.
  - split.
    + intros [s' Hrun]. destruct (requests_get url) as [msg|resp]; [discriminate|].
      split; [now exists resp|].
      destruct article_elements as [ae|]; [|tauto].
      destruct class_name as [cn|]; [|tauto].
      destruct date_tag as [dt|]; [|tauto].
      now apply loop_no_configuration_error in Hrun.
    + intros [[resp ->] Hunset].
      exists (logged (EvGet url) s).
      destruct article_elements as [ae|]; [|reflexivity].
      destruct class_name as [cn|]; [|reflexivity].
      destruct date_tag as [dt|]; [|reflexivity].
      destruct Hunset as [?|[?|?]]; discriminate.
  - intros [ae ->] [cn ->] [dt ->] s'.
    destruct (requests_get url) as [msg|resp]; [discriminate|].
    apply loop_no_configuration_error.
Qed.

(** C10: the fetch comes before the validation.  For a call with a
    mandatory field missing, the configuration error is raised after a
    successful fetch, and a failed fetch is reported in its place; the
    request is made in both cases. *)
Theorem fetch_precedes_validation
    (article_elements class_name date_tag date_class : option string) (s : state) :
  article_elements = None \/ class_name = None \/ date_tag = None ->
  (forall resp, requests_get url = inr resp ->
     extract_news url keywords max_articles article_elements class_name title_tag
                  description_tag date_tag date_class s
     = (inl ConfigurationError, logged (EvGet url) s))
  /\ (forall msg, requests_get url = inl msg ->
        extract_news url keywords max_articles article_elements class_name title_tag
                     description_tag date_tag date_class s
        = (inl (RequestException msg), logged (EvGet url) s)).
Proof.
  intros Hunset. rewrite extract_news_unfold. split.
  - intros resp ->.
    destruct article_elements as [ae|]; [|reflexivity].
    destruct class_name as [cn|]; [|reflexivity].
    destruct date_tag as [dt|]; [|reflexivity].
    destruct Hunset as [?|[?|?]]; discriminate.
  - intros msg ->. reflexivity.
Qed.

(** C6: the counter advances only for emitted records.  An element with
    no title element and an element whose title has no category leave the
    output and the whole state as they were; one element appends at most
    one record and advances the counter by the number it appends; a run of
    extract_news advances the counter by the number of records it returns,
    and not at all when it raises. *)
Theorem counter_advances_only_for_emitted :
  (forall class_name article_el articles s,
      find article_el title_tag (Some class_name) = None ->
      process_article url keywords class_name title_tag description_tag
                      article_el articles s
      = (inr articles, s))
  /\ (forall class_name article_el title_element articles s,
        find article_el title_tag (Some class_name) = Some title_element ->
        classify (PyStr.strip (text title_element)) keywords = None ->
        process_article url keywords class_name title_tag description_tag
                        article_el articles s
        = (inr articles, s))
  /\ (forall class_name article_el articles s,
        match process_article url keywords class_name title_tag description_tag
                              article_el articles s with
        | (inr out, s') =>
            exists news, out = (articles ++ news)%list
                         /\ (length news <= 1)%nat
                         /\ unique_id_counter s'
                            = unique_id_counter s + Z.of_nat (length news)
        | (inl _, s') => unique_id_counter s' = unique_id_counter s
        end)
  /\ (forall article_elements class_name date_tag date_class s,
        match extract_news url keywords max_articles article_elements class_name
                           title_tag description_tag date_tag date_class s with
        | (inr out, s') =>
            unique_id_counter s' = unique_id_counter s + Z.of_nat (length out)
        | (inl _, s') => unique_id_counter s' = unique_id_counter s
        end).
Proof.
  split; [|split; [|split]].
  - intros class_name article_el articles s Hfind.
    apply process_article_skip. unfold qualifying. now rewrite Hfind.
  - intros class_name article_el title_element articles s Hfind Hclass.
    apply process_article_skip. unfold qualifying. rewrite Hfind. simpl.
    now rewrite Hclass.
  - intros class_name article_el articles s.
    destruct (qualifying keywords class_name title_tag article_el)
      as [[title_text category]|] eqn:Hq.
    + destruct (PyStr.split "/" url !! 2%nat) as [src|] eqn:Hsrc.
      * rewrite (process_article_emit _ _ _ _ _ _ _ _ _ _ _ Hq Hsrc).
        eexists [_]. simpl. split; [reflexivity|]. split; lia.
      * rewrite (process_article_fail _ _ _ _ _ _ _ _ _ _ Hq Hsrc). reflexivity.
    + rewrite (process_article_skip _ _ _ _ _ _ _ _ Hq).
      exists []. rewrite app_nil_r. simpl. split; [reflexivity|]. split; lia.
  - intros article_elements class_name date_tag date_class s.
    rewrite extract_news_unfold.
    destruct (requests_get url) as [msg|resp]; [reflexivity|].
    destruct article_elements as [ae|]; [|reflexivity].
    destruct class_name as [cn|]; [|reflexivity].
    destruct date_tag as [dt|]; [|reflexivity].
    pose proof (loop_counter cn
                  (PyList.slice_to (find_all (BeautifulSoup resp) ae) max_articles)
                  [] (logged (EvGet url) s)) as Hloop.
    destruct (for_each _ _ _ _) as [[e|out] s'].
    + exact Hloop.
    + destruct Hloop as (news & -> & Hc). exact Hc.
Qed.

(** C7: every record returned by extract_news carries the system date
    read while it was produced, formatted as month name, two-digit day,
    comma and year; the date selector and the date class have no part in
    it, the run being the same for any other selector and class. *)
Theorem date_is_scrape_date
    (article_elements class_name date_tag date_class : option string)
    (s s' : state) (out : list article) :
  extract_news url keywords max_articles article_elements class_name title_tag
               description_tag date_tag date_class s
  = (inr out, s') ->
  clock s' = (clock s + length out)%nat
  /\ (forall (i : nat) (r : article),
        out !! i = Some r ->
        let t := datetime_now (clock s + i) in
        Date r = month_name (mon t) ++ " " ++ two_digits (day t) ++ ", "
                 ++ PyStr.of_nat (year t))
  /\ (forall date_tag' date_class',
        extract_news url keywords max_articles article_elements class_name title_tag
                     description_tag (Some date_tag') date_class' s
        = (inr out, s')).
Proof.
  intros Hrun. split; [|split].
  - rewrite extract_news_unfold in Hrun.
    destruct (requests_get url) as [msg|resp]; [discriminate|].
    destruct article_elements as [ae|]; [|discriminate].
    destruct class_name as [cn|]; [|discriminate].
    destruct date_tag as [dt|]; [|discriminate].
    destruct (PyStr.split "/" url !! 2%nat) as [src|] eqn:Hsrc.
    + destruct (loop_good url keywords cn title_tag description_tag src
                  (PyList.slice_to (find_all (BeautifulSoup resp) ae) max_articles)
                  Hsrc [] (logged (EvGet url) s))
        as (news & s1 & Hrun1 & _ & Hk & _).
      rewrite Hrun1 in Hrun. injection Hrun as <- <-. exact Hk.
    + destruct (loop_bad url keywords cn title_tag description_tag
                  (PyList.slice_to (find_all (BeautifulSoup resp) ae) max_articles)
                  Hsrc [] (logged (EvGet url) s))
        as [[Hrun1 _] | (s1 & Hrun1 & _)]; rewrite Hrun1 in Hrun; [|discriminate].
      injection Hrun as <- <-. simpl. lia.
  - intros i r Hi. rewrite extract_news_unfold in Hrun.
    destruct (requests_get url) as [msg|resp]; [discriminate|].
    destruct article_elements as [ae|]; [|discriminate].
    destruct class_name as [cn|]; [|discriminate].
    destruct date_tag as [dt|]; [|discriminate].
    destruct (PyStr.split "/" url !! 2%nat) as [src|] eqn:Hsrc.
    + destruct (loop_good url keywords cn title_tag description_tag src
                  (PyList.slice_to (find_all (BeautifulSoup resp) ae) max_articles)
                  Hsrc [] (logged (EvGet url) s))
        as (news & s1 & Hrun1 & _ & _ & _ & Hrec).
      rewrite Hrun1 in Hrun. injection Hrun as <- <-.
      destruct (Hrec i r Hi) as (_ & Hdate & _). exact Hdate.
    + destruct (loop_bad url keywords cn title_tag description_tag
                  (PyList.slice_to (find_all (BeautifulSoup resp) ae) max_articles)
                  Hsrc [] (logged (EvGet url) s))
        as [[Hrun1 _] | (s1 & Hrun1 & _)]; rewrite Hrun1 in Hrun; [|discriminate].
      injection Hrun as <- <-. discriminate.
  - intros date_tag' date_class'. rewrite <- Hrun. rewrite !extract_news_unfold.
    destruct (requests_get url) as [msg|resp]; [reflexivity|].
    destruct article_elements as [ae|]; [|rewrite extract_news_unfold in Hrun].
    + destruct class_name as [cn|]; [|rewrite extract_news_unfold in Hrun].
      * destruct date_tag as [dt|]; [reflexivity|rewrite extract_news_unfold in Hrun].
        exfalso. revert Hrun. destruct (requests_get url); discriminate.
      * exfalso. revert Hrun. destruct (requests_get url); discriminate.
    + exfalso. revert Hrun. destruct (requests_get url); discriminate.
Qed.

(** A run of extract_news on a page that was fetched, with the three
    mandatory fields given, is the loop over the selected elements. *)
Lemma extract_news_fetched (resp : response) (ae cn dt : string)
    (date_class : option string) (s : state) :
  requests_get url = inr resp ->
  extract_news url keywords max_articles (Some ae) (Some cn) title_tag
               description_tag (Some dt) date_class s
  = for_each (process_article url keywords cn title_tag description_tag)
             (PyList.slice_to (find_all (BeautifulSoup resp) ae) max_articles)
             [] (logged (EvGet url) s).
Proof. intros Hget. rewrite extract_news_unfold, Hget. reflexivity. Qed.

(** For a url with at least two slashes, an element with a matched title
    whose category matches but with no description element appends a
    record, and that record's description is the empty string; when the
    element is among those selected from the fetched page, the record is
    in the result of extract_news. *)
Lemma missing_description_defaults (class_name : string)
    (article_el title_element : tag) (category : string) :
  find article_el title_tag (Some class_name) = Some title_element ->
  classify (PyStr.strip (text title_element)) keywords = Some category ->
  find article_el description_tag None = None ->
  (2 <= PyStr.count "/" url)%nat ->
  (forall (articles : list article) (s : state),
      exists r s',
        process_article url keywords class_name title_tag description_tag
                        article_el articles s
        = (inr (articles ++ [r])%list, s')
        /\ Description r = ""
        /\ Title r = PyStr.strip (text title_element)
        /\ Category r = category)
  /\ (forall (resp : response) (article_elements date_tag : string)
             (date_class : option string) (s : state),
        requests_get url = inr resp ->
        article_el ∈ PyList.slice_to (find_all (BeautifulSoup resp) article_elements)
                                     max_articles ->
        exists out s' r,
          extract_news url keywords max_articles (Some article_elements)
                       (Some class_name) title_tag description_tag (Some date_tag)
                       date_class s
          = (inr out, s')
          /\ r ∈ out
          /\ Description r = ""
          /\ Title r = PyStr.strip (text title_element)
          /\ Category r = category).
Proof.
  intros Hfind Hclass Hdesc Hurl.
  apply split_third in Hurl. destruct Hurl as [src Hsrc].
  pose proof (qualifying_intro _ _ _ _ Hfind Hclass) as Hq.
  assert (Hempty : description_of description_tag article_el = "").
  { unfold description_of. now rewrite Hdesc. }
  split.
  - intros articles s.
    rewrite (process_article_emit _ _ _ _ _ _ _ _ _ _ _ Hq Hsrc).
    eexists. eexists. split; [reflexivity|]. simpl. auto.
  - intros resp ae dt date_class s Hget Hin.
    rewrite (extract_news_fetched _ _ _ _ _ _ Hget).
    destruct (loop_good url keywords class_name title_tag description_tag src
                (PyList.slice_to (find_all (BeautifulSoup resp) ae) max_articles)
                Hsrc [] (logged (EvGet url) s))
      as (news & s1 & Hrun & _).
    destruct (loop_good_records url keywords class_name title_tag description_tag src
                _ Hsrc _ _ _ _ Hrun _ _ _ Hin Hq)
      as (r & Hr & Ht & Hc & Hd & _).
    exists ([] ++ news)%list, s1, r. rewrite Hrun, Hd, Hempty. auto.
Qed.

(** C9: the source name is the third slash-delimited segment of the url,
    taken without a guard.  A qualifying element yields a record exactly
    when the url has at least two slashes; with fewer, the element raises
    an index error, no record is produced and no id is taken, and so does
    a run of extract_news that selects the element. *)
Theorem source_needs_two_slashes (class_name : string)
    (article_el title_element : tag) (category : string)
    (articles : list article) (s : state) :
  find article_el title_tag (Some class_name) = Some title_element ->
  classify (PyStr.strip (text title_element)) keywords = Some category ->
  ((exists out s',
       process_article url keywords class_name title_tag description_tag
                       article_el articles s = (inr out, s'))
   <-> (2 <= PyStr.count "/" url)%nat)
  /\ ((2 <= PyStr.count "/" url)%nat ->
      exists src r s',
        PyStr.split "/" url !! 2%nat = Some src
        /\ process_article url keywords class_name title_tag description_tag
                           article_el articles s
           = (inr (articles ++ [r])%list, s')
        /\ Source r = src)
  /\ ((PyStr.count "/" url < 2)%nat ->
      exists s',
        process_article url keywords class_name title_tag description_tag
                        article_el articles s
        = (inl (IndexError "list index out of range"), s')
        /\ unique_id_counter s' = unique_id_counter s)
  /\ (forall (resp : response) (article_elements date_tag : string)
             (date_class : option string),
        requests_get url = inr resp ->
        article_el ∈ PyList.slice_to (find_all (BeautifulSoup resp) article_elements)
                                     max_articles ->
        (PyStr.count "/" url < 2)%nat ->
        exists s',
          extract_news url keywords max_articles (Some article_elements)
                       (Some class_name) title_tag description_tag (Some date_tag)
                       date_class s
          = (inl (IndexError "list index out of range"), s')
          /\ unique_id_counter s' = unique_id_counter s).
Proof.
  intros Hfind Hclass.
  pose proof (qualifying_intro _ _ _ _ Hfind Hclass) as Hq.
  destruct (PyStr.split "/" url !! 2%nat) as [src|] eqn:Hsrc.
  - assert (Hurl : (2 <= PyStr.count "/" url)%nat).
    { apply split_third. now rewrite Hsrc. }
    rewrite (process_article_emit _ _ _ _ _ _ _ _ _ _ _ Hq Hsrc).
    split; [|split; [|split]].
    + split; [auto | intros _; eauto].
    + intros _. exists src. eexists. eexists. split; [reflexivity|].
      split; reflexivity.
    + lia.
    + intros; lia.
  - assert (Hurl : ~ (2 <= PyStr.count "/" url)%nat).
    { rewrite split_third, Hsrc. intros [x Hx]. discriminate. }
    rewrite (process_article_fail _ _ _ _ _ _ _ _ _ _ Hq Hsrc).
    split; [|split; [|split]].
    + split; [intros (out & s' & Hrun); discriminate | tauto].
    + tauto.
    + intros _. eexists. split; reflexivity.
    + intros resp ae dt date_class Hget Hin _.
      rewrite (extract_news_fetched _ _ _ _ _ _ Hget).
      destruct (loop_bad url keywords class_name title_tag description_tag
                  (PyList.slice_to (find_all (BeautifulSoup resp) ae) max_articles)
                  Hsrc [] (logged (EvGet url) s))
        as [[_ Hall] | (s1 & Hrun & Hc & _)].
      * rewrite Forall_forall in Hall. specialize (Hall _ Hin). congruence.
      * exists s1. split; [exact Hrun | exact Hc].
Qed.

End ExtractNews.

(** ** save_to_mongo *)

Lemma save_to_mongo_unfold (data : list article) (s : state) :
  save_to_mongo data s = (inr PyNone, after_save data s).
Proof.
  unfold save_to_mongo, after_save, persist_events, new_articles_of, existing_ids_of,
    counter_of, bind, collection_find_in, insert_many, find_one_max, print, emit,
    set_counter, ret.
  simpl.
  destruct (filter _ data) as [|a new] eqn:Hnew; simpl.
  - rewrite app_nil_r.
    destruct (max_id_doc_of (collection s)); simpl; rewrite <- !app_assoc; reflexivity.
  - destruct (max_id_doc_of (collection s ++ a :: new)); simpl;
      rewrite <- !app_assoc; reflexivity.
Qed.

(** The ids found are those of the batch that the collection holds. *)
Lemma elem_of_existing_ids (data coll : list article) (x : Z) :
  x ∈ existing_ids_of data coll <-> x ∈ (id <$> data) /\ x ∈ (id <$> coll).
Proof.
  unfold existing_ids_of. rewrite elem_of_list_to_set, !list_elem_of_fmap. split.
  - intros (doc & -> & Hdoc). apply list_elem_of_filter in Hdoc as [Hin Hdoc].
    apply list_elem_of_fmap in Hin. split; [exact Hin | now exists doc].
  - intros [Hin (doc & -> & Hdoc)]. exists doc. split; [reflexivity|].
    apply list_elem_of_filter. split; [|exact Hdoc].
    now apply list_elem_of_fmap.
Qed.

Lemma filter_iff_on {A} (P Q : A -> Prop) `{!forall x, Decision (P x)}
    `{!forall x, Decision (Q x)} (l : list A) :
  (forall x, x ∈ l -> P x <-> Q x) -> filter P l = filter Q l.
Proof.
  induction l as [|a l IH]; intros Hiff; [reflexivity|].
  assert (Hl : filter P l = filter Q l).
  { apply IH. intros x Hx. apply Hiff. now right. }
  assert (Ha : P a <-> Q a) by (apply Hiff; left).
  destruct (decide (P a)) as [HP|HP].
  - rewrite !filter_cons_True by tauto. now rewrite Hl.
  - rewrite !filter_cons_False by tauto. exact Hl.
Qed.

(** The new partition holds the records whose id the collection lacks. *)
Lemma new_articles_of_spec (data coll : list article) :
  new_articles_of data coll = filter (fun a => id a ∉ (id <$> coll)) data.
Proof.
  unfold new_articles_of. apply filter_iff_on. intros a Ha.
  rewrite elem_of_existing_ids.
  assert (id a ∈ (id <$> data)) by now apply list_elem_of_fmap_2.
  tauto.
Qed.

Lemma filter_none {A} (P : A -> Prop) `{!forall x, Decision (P x)} (l : list A) :
  (forall x, x ∈ l -> ~ P x) -> filter P l = [].
Proof.
  induction l as [|a l IH]; intros Hno; [reflexivity|].
  rewrite filter_cons_False by (apply Hno; left).
  apply IH. intros x Hx. apply Hno. now right.
Qed.

(** Once a batch has been saved, the collection holds each of its ids. *)
Lemma saved_ids_found (data coll : list article) (a : article) :
  a ∈ data -> id a ∈ (id <$> (coll ++ new_articles_of data coll)%list).
Proof.
  intros Ha. rewrite fmap_app, elem_of_app.
  destruct (decide (id a ∈ (id <$> coll))) as [Hin|Hout]; [now left | right].
  apply list_elem_of_fmap_2. rewrite new_articles_of_spec.
  apply list_elem_of_filter. split; assumption.
Qed.

(** Once a batch has been saved, none of its records is new. *)
Lemma new_articles_of_saved (data coll : list article) :
  new_articles_of data (coll ++ new_articles_of data coll) = [].
Proof.
  rewrite (new_articles_of_spec data (coll ++ _)).
  apply filter_none. intros a Ha Hnot. apply Hnot. now apply saved_ids_found.
Qed.

(** C2: persisting is idempotent.  After a call of save_to_mongo on a
    batch, a second call on the same batch finds every id of the batch,
    has an empty new partition (an inserted count of 0), performs no
    insert (its store operations are the existence query and the maximum
    query only, and it prints that there is nothing new) and leaves the
    collection as it was. *)
Theorem persist_twice_inserts_nothing (data : list article) (s : state) :
  let s1 := snd (save_to_mongo data s) in
  let s2 := snd (save_to_mongo data s1) in
  (forall a, a ∈ data -> id a ∈ existing_ids_of data (collection s1))
  /\ new_articles_of data (collection s1) = []
  /\ length (new_articles_of data (collection s1)) = 0%nat
  /\ collection s2 = collection s1
  /\ trace s2
     = (trace s1
        ++ [EvFind (id <$> data);
            EvPrint "No new articles to insert. All articles were already present.";
            EvFindOneMax])%list
  /\ fst (save_to_mongo data s1) = inr PyNone.
Proof.
  simpl. rewrite !save_to_mongo_unfold. simpl.
  rewrite new_articles_of_saved. simpl. rewrite app_nil_r.
  split; [|repeat split].
  intros a Ha. apply elem_of_existing_ids.
  split; [now apply list_elem_of_fmap_2 | now apply saved_ids_found].
Qed.

(** The document found by the maximum query is in the collection and no
    document has a greater id. *)
Lemma max_id_doc_of_spec (coll : list article) :
  match max_id_doc_of coll with
  | Some d => d ∈ coll /\ forall d', d' ∈ coll -> id d' <= id d
  | None => coll = []
  end.
Proof.
  induction coll as [|a coll IH]; simpl; [reflexivity|].
  destruct (max_id_doc_of coll) as [d|].
  - destruct IH as [Hin Hmax]. destruct (Z.ltb_spec (id a) (id d)).
    + split; [now right|]. intros d' Hd'. apply elem_of_cons in Hd' as [->|Hd'].
      * lia.
      * now apply Hmax.
    + split; [now left|]. intros d' Hd'. apply elem_of_cons in Hd' as [->|Hd'].
      * lia.
      * specialize (Hmax d' Hd'). lia.
  - subst coll. split; [now left|]. intros d' Hd'.
    apply elem_of_cons in Hd' as [->|Hd']; [lia | inversion Hd'].
Qed.

(** C3, as amended: save_to_mongo queries the store once for the ids of
    the batch, the ids found being those the batch and the collection
    share; it inserts, in one operation, exactly the records whose id the
    collection lacks, and performs no insert when there is none; it
    reports the number inserted on standard output and returns [None] to
    its caller. *)
Theorem persist_inserts_new_only (data : list article) (s : state) :
  let new := filter (fun a => id a ∉ (id <$> collection s)) data in
  (forall x, x ∈ existing_ids_of data (collection s)
             <-> x ∈ (id <$> data) /\ x ∈ (id <$> collection s))
  /\ new_articles_of data (collection s) = new
  /\ fst (save_to_mongo data s) = inr PyNone
  /\ collection (snd (save_to_mongo data s)) = (collection s ++ new)%list
  /\ trace (snd (save_to_mongo data s))
     = (trace s
        ++ EvFind (id <$> data)
        :: match new with
           | [] => [EvPrint "No new articles to insert. All articles were already present."]
           | _ :: _ => [EvInsertMany new;
                        EvPrint ("Inserted " ++ PyStr.of_nat (length new)
                                   ++ " new articles into MongoDB.")]
           end
        ++ [EvFindOneMax])%list.
Proof.
  simpl. rewrite save_to_mongo_unfold. unfold after_save, persist_events. simpl.
  rewrite new_articles_of_spec.
  split; [intros x; apply elem_of_existing_ids|]. repeat split.
Qed.

(** Saving keeps the ids of the collection distinct, for a batch of
    distinct ids. *)
Lemma save_to_mongo_ids_distinct (data : list article) (s : state) :
  NoDup (id <$> collection s) ->
  NoDup (id <$> data) ->
  NoDup (id <$> collection (snd (save_to_mongo data s))).
Proof.
  intros Hcoll Hdata. rewrite save_to_mongo_unfold. simpl.
  rewrite new_articles_of_spec, fmap_app. apply NoDup_app.
  split; [exact Hcoll|]. split.
  - intros x Hx Hnew. apply list_elem_of_fmap in Hnew as (a & -> & Ha).
    apply list_elem_of_filter in Ha as [Hnot _]. contradiction.
  - apply (sublist_NoDup _ (id <$> data)); [exact Hdata|].
    apply fmap_sublist, sublist_filter.
Qed.

(** X17: save_to_mongo leaves the counter at the greatest id of the
    collection, or at 0 when the collection is empty. *)
Lemma save_to_mongo_resync (data : list article) (s : state) :
  let s' := snd (save_to_mongo data s) in
  (collection s' = [] /\ unique_id_counter s' = 0)
  \/ (unique_id_counter s' ∈ (id <$> collection s')
      /\ forall d, d ∈ collection s' -> id d <= unique_id_counter s').
Proof.
  simpl. rewrite save_to_mongo_unfold. unfold after_save, counter_of. simpl.
  pose proof (max_id_doc_of_spec (collection s ++ new_articles_of data (collection s)))
    as Hmax.
  destruct (max_id_doc_of _) as [d|].
  - right. destruct Hmax as [Hin Hle]. split; [|exact Hle].
    now apply list_elem_of_fmap_2.
  - left. now split.
Qed.

(** ** Ids across runs *)

(** The ids a run of extract_news assigns continue from the counter it
    starts with. *)
Lemma extract_news_ids `{Collaborators} (url : string)
    (keywords : list (string * list string)) (max_articles : Z)
    (article_elements class_name title_tag description_tag date_tag date_class : option string)
    (s s' : state) (out : list article) :
  extract_news url keywords max_articles article_elements class_name title_tag
               description_tag date_tag date_class s
  = (inr out, s') ->
  forall (i : nat) (r : article),
    out !! i = Some r -> id r = unique_id_counter s + Z.of_nat i + 1.
Proof.
  intros Hrun i r Hi. rewrite extract_news_unfold in Hrun.
  destruct (requests_get url) as [msg|resp]; [discriminate|].
  destruct article_elements as [ae|]; [|discriminate].
  destruct class_name as [cn|]; [|discriminate].
  destruct date_tag as [dt|]; [|discriminate].
  destruct (PyStr.split "/" url !! 2%nat) as [src|] eqn:Hsrc.
  - destruct (loop_good url keywords cn title_tag description_tag src
                (PyList.slice_to (find_all (BeautifulSoup resp) ae) max_articles)
                Hsrc [] (logged (EvGet url) s))
      as (news & s1 & Hrun1 & _ & _ & _ & Hrec).
    rewrite Hrun1 in Hrun. injection Hrun as <- <-.
    destruct (Hrec i r Hi) as (Hid & _). exact Hid.
  - destruct (loop_bad url keywords cn title_tag description_tag
                (PyList.slice_to (find_all (BeautifulSoup resp) ae) max_articles)
                Hsrc [] (logged (EvGet url) s))
      as [[Hrun1 _] | (s1 & Hrun1 & _)]; rewrite Hrun1 in Hrun; [|discriminate].
    injection Hrun as <- <-. discriminate.
Qed.

(** C1: the resynchronisation of the counter is the last step of
    save_to_mongo, after the extraction of the run, so a restarted process
    extracts with the counter at 0.  Whatever the collection holds, the
    ids of the first extraction after a restart are 1, 2, ...; in the run
    below the collection already holds ids 1 and 2, the two newly
    extracted articles get ids 1 and 2 again, both are found existing and
    the collection is left as it was. *)
Theorem restart_reuses_persisted_ids :
  (forall (W : Collaborators) (url : string) (keywords : list (string * list string))
          (max_articles : Z)
          (article_elements class_name title_tag description_tag date_tag
             date_class : option string)
          (coll : list article) (out : list article) (s' : state) (i : nat) (r : article),
      extract_news url keywords max_articles article_elements class_name title_tag
                   description_tag date_tag date_class (process_start coll)
      = (inr out, s') ->
      out !! i = Some r -> id r = Z.of_nat i + 1)
  /\ (id <$> Toy.old_store) = [1; 2]
  /\ (exists out s1,
        Toy.extract1 "https://news.example/latest" (Some "article") (Some "t")
                     (Some "time") (process_start Toy.old_store)
        = (inr out, s1)
        /\ id <$> out = [1; 2])
  /\ @run Toy.world1 Toy.kw1 [Toy.site1] (process_start Toy.old_store)
     = (inr PyNone,
        {| unique_id_counter := 2;
           collection := Toy.old_store;
           clock := 2;
           trace :=
             [ EvGet "https://news.example/latest"; EvNow;
               EvSentiment "Bitcoin hits new high Analysts react"; EvNow;
               EvSentiment "ethereum upgrade ";
               EvPrint "Extracted 2 articles from https://news.example/latest.";
               EvFind [1; 2];
               EvPrint "No new articles to insert. All articles were already present.";
               EvFindOneMax;
               EvPrint "Saved 2 articles to MongoDB." ] |}).
Proof.
  split; [|split; [|split]].
  - intros W url keywords max_articles ae cn tt dt dtag dcls coll out s' i r Hrun Hi.
    apply (extract_news_ids _ _ _ _ _ _ _ _ _ _ _ _ Hrun) in Hi. simpl in Hi. lia.
  - reflexivity.
  - eexists. eexists. split; vm_compute; reflexivity.
  - vm_compute. reflexivity.
Qed.

(** ** Concrete runs *)

(** C3 as stated fails on a batch of one new record: the record is
    inserted and the call evaluates to [None], not to the count 1. *)
Lemma persist_returns_no_count :
  new_articles_of [Toy.old_article 7 "Bitcoin climbs"] (collection (process_start []))
  = [Toy.old_article 7 "Bitcoin climbs"]
  /\ collection (snd (save_to_mongo [Toy.old_article 7 "Bitcoin climbs"] (process_start [])))
     = [Toy.old_article 7 "Bitcoin climbs"]
  /\ fst (save_to_mongo [Toy.old_article 7 "Bitcoin climbs"] (process_start []))
     = inr PyNone
  /\ fst (save_to_mongo [Toy.old_article 7 "Bitcoin climbs"] (process_start []))
     <> inr (PyInt 1).
Proof.
  split; [vm_compute; reflexivity|].
  split; [vm_compute; reflexivity|].
  split; [vm_compute; reflexivity|].
  vm_compute. discriminate.
Qed.

(** C5 as stated fails when the site cannot be reached: with the article
    selector unset, the call fails with the error of the fetch and not
    with the configuration error. *)
Lemma configuration_error_masked_by_fetch :
  Toy.extract1 "https://unreachable.example/" None (Some "t") (Some "time")
               (process_start [])
  = (inl (RequestException "connection refused"),
     logged (EvGet "https://unreachable.example/") (process_start []))
  /\ ~ ((exists s', Toy.extract1 "https://unreachable.example/" None (Some "t")
                                 (Some "time") (process_start [])
                    = (inl ConfigurationError, s'))
        <-> (@None string = None \/ Some "t" = None \/ Some "time" = None)).
Proof.
  assert (Hrun : Toy.extract1 "https://unreachable.example/" None (Some "t") (Some "time")
                              (process_start [])
                 = (inl (RequestException "connection refused"),
                    logged (EvGet "https://unreachable.example/") (process_start [])))
    by (vm_compute; reflexivity).
  split; [exact Hrun|].
  intros [_ Hif]. destruct Hif as [s' Hs']; [left; reflexivity|].
  rewrite Hrun in Hs'. discriminate.
Qed.

(** The statement of C10 on a call with the article selector unset, to a
    site that answers. *)
Lemma fetch_precedes_validation_witness :
  (@None string = None \/ Some "t" = None \/ Some "time" = None)
  /\ Toy.extract1 "https://news.example/latest" None (Some "t") (Some "time")
                  (process_start [])
     = (inl ConfigurationError, logged (EvGet "https://news.example/latest")
                                       (process_start [])).
Proof.
  assert (Hunset : @None string = None \/ Some "t" = None \/ Some "time" = None)
    by (left; reflexivity).
  split; [exact Hunset|].
  destruct (@fetch_precedes_validation Toy.world1 "https://news.example/latest" Toy.kw1 100
              (Some "h4") (Some "p") None (Some "t") (Some "time") None (process_start [])
              Hunset) as [Hok _].
  apply (Hok Toy.page1). reflexivity.
Defined.

(** The statement of C7 on the extraction of [Toy.page1]. *)
Lemma date_is_scrape_date_witness :
  Toy.extract1 "https://news.example/latest" (Some "article") (Some "t") (Some "time")
               (process_start [])
  = (inr Toy.out1, Toy.after1)
  /\ (forall (i : nat) (r : article),
        Toy.out1 !! i = Some r ->
        Date r = strftime_B_d_Y (Toy.now1 i))
  /\ @extract_news Toy.world1 "https://news.example/latest" Toy.kw1 100
                   (Some "article") (Some "t") (Some "h4") (Some "p")
                   (Some "published") (Some "entry-date") (process_start [])
     = (inr Toy.out1, Toy.after1).
Proof.
  assert (Hrun : Toy.extract1 "https://news.example/latest" (Some "article") (Some "t")
                              (Some "time") (process_start [])
                 = (inr Toy.out1, Toy.after1))
    by (vm_compute; reflexivity).
  split; [exact Hrun|].
  destruct (@date_is_scrape_date Toy.world1 "https://news.example/latest" Toy.kw1 100
              (Some "h4") (Some "p") (Some "article") (Some "t") (Some "time") None
              (process_start []) Toy.after1 Toy.out1 Hrun) as (_ & Hdate & Hsame).
  split; [exact Hdate | exact (Hsame "published" (Some "entry-date"))].
Defined.

(** The statement of C9 on [Toy.eth_fragment], for a url of four
    segments and for a url of one. *)
Lemma source_needs_two_slashes_witness :
  (exists src r s',
      PyStr.split "/" "https://news.example/latest" !! 2%nat = Some src
      /\ @process_article Toy.world1 "https://news.example/latest" Toy.kw1 "t" (Some "h4")
                          (Some "p") Toy.eth_fragment [] (process_start [])
         = (inr [r], s')
      /\ Source r = src)
  /\ (exists s',
        Toy.extract1 "news.example" (Some "article") (Some "t") (Some "time")
                     (process_start [])
        = (inl (IndexError "list index out of range"), s')
        /\ unique_id_counter s' = 0).
Proof.
  split.
  - destruct (@source_needs_two_slashes Toy.world1 "https://news.example/latest" Toy.kw1
                100 (Some "h4") (Some "p") "t" Toy.eth_fragment
                (Toy.Leaf (Toy.h4 "t" "ethereum upgrade")) "ETH" [] (process_start [])
                eq_refl eq_refl) as (_ & Hgood & _).
    apply Hgood. vm_compute. lia.
  - destruct (@source_needs_two_slashes Toy.world1 "news.example" Toy.kw1
                100 (Some "h4") (Some "p") "t" Toy.eth_fragment
                (Toy.Leaf (Toy.h4 "t" "ethereum upgrade")) "ETH" [] (process_start [])
                eq_refl eq_refl) as (_ & _ & _ & Hbad).
    apply (Hbad Toy.page1 "article" "time" None eq_refl).
    + vm_compute. do 3 right. left.
    + vm_compute. lia.
Defined.

(** * Further properties of the script *)

(** ** Extraction as a list comprehension *)

Section ExtractionExact.

Context `{Collaborators}.

Variables (url : string) (keywords : list (string * list string)).
Variables (class_name : string) (title_tag description_tag : option string).

Lemma emitted_record_at (a : tag) (title_text category src : string) (s : state) :
  emitted url description_tag a title_text category src s
  = record_at url description_tag src (unique_id_counter s) (clock s) 0
              (a, (title_text, category)).
Proof.
  unfold emitted, record_at. simpl. rewrite Z.add_0_r, Nat.add_0_r. reflexivity.
Qed.

Lemma record_at_shift (src : string) (counter : Z) (clk i : nat)
    (q : tag * (string * string)) :
  record_at url description_tag src (counter + 1) (S clk) i q
  = record_at url description_tag src counter clk (S i) q.
Proof.
  unfold record_at. f_equal; [lia|]. do 2 f_equal. lia.
Qed.

Lemma after_records_cons (a : tag) (title_text category : string)
    (quals : list (tag * (string * string))) (s : state) :
  after_records description_tag quals (after_emit description_tag a title_text s)
  = after_records description_tag ((a, (title_text, category)) :: quals) s.
Proof.
  unfold after_records, after_emit. simpl. f_equal.
  - lia.
  - lia.
  - rewrite <- app_assoc. reflexivity.
Qed.

Lemma qualifying_elements_cons (a : tag) (l : list tag) :
  qualifying_elements keywords class_name title_tag (a :: l)
  = match qualifying keywords class_name title_tag a with
    | Some tc => (a, tc) :: qualifying_elements keywords class_name title_tag l
    | None => qualifying_elements keywords class_name title_tag l
    end.
Proof.
  unfold qualifying_elements. simpl.
  destruct (qualifying keywords class_name title_tag a); reflexivity.
Qed.

(** With a url of three segments or more the loop appends the records of
    the qualifying elements, in order. *)
Lemma loop_good_exact (src : string) (l : list tag) :
  PyStr.split "/" url !! 2%nat = Some src ->
  forall (acc : list article) (s : state),
    for_each (process_article url keywords class_name title_tag description_tag) l acc s
    = (inr (acc ++ imap (record_at url description_tag src (unique_id_counter s) (clock s))
                        (qualifying_elements keywords class_name title_tag l))%list,
       after_records description_tag
                     (qualifying_elements keywords class_name title_tag l) s).
Proof.
  intros Hsrc. induction l as [|a l' IH]; intros acc s.
  - simpl. rewrite app_nil_r. unfold ret, after_records. simpl.
    rewrite Z.add_0_r, Nat.add_0_r, app_nil_r. destruct s; reflexivity.
  - rewrite for_each_cons, qualifying_elements_cons.
    destruct (qualifying keywords class_name title_tag a) as [[title_text category]|] eqn:Hq.
    + rewrite (process_article_emit _ _ _ _ _ _ _ _ _ _ _ Hq Hsrc), IH.
      rewrite (after_records_cons a title_text category), imap_cons, <- app_assoc,
        emitted_record_at. simpl.
      do 4 f_equal. apply imap_ext. intros i q _. simpl. apply record_at_shift.
    + rewrite (process_article_skip _ _ _ _ _ _ _ _ Hq). apply IH.
Qed.

(** With a shorter url the loop returns only when no element qualifies. *)
Lemma loop_bad_returns (l : list tag) (acc out : list article) (s s' : state) :
  PyStr.split "/" url !! 2%nat = None ->
  for_each (process_article url keywords class_name title_tag description_tag) l acc s
  = (inr out, s') ->
  qualifying_elements keywords class_name title_tag l = [] /\ out = acc /\ s' = s.
Proof.
  intros Hsrc Hrun.
  destruct (loop_bad url keywords class_name title_tag description_tag l Hsrc acc s)
    as [[Hrun1 Hall] | (s1 & Hrun1 & _)]; rewrite Hrun1 in Hrun; [|discriminate].
  injection Hrun as <- <-. split; [|auto]. clear Hrun1.
  induction Hall as [|a l' Ha _ IH]; [reflexivity|].
  rewrite qualifying_elements_cons, Ha. exact IH.
Qed.

End ExtractionExact.

Section ExtractNewsExact.

Context `{Collaborators}.

Variables (url : string) (keywords : list (string * list string)) (max_articles : Z).
Variables (title_tag description_tag : option string).

Lemma after_records_nil (s : state) : after_records description_tag [] s = s.
Proof.
  unfold after_records. destruct s. simpl.
  rewrite Z.add_0_r, Nat.add_0_r, app_nil_r. reflexivity.
Qed.

(** What a run of extract_news that returns has returned, and the state
    it has left. *)
Lemma extract_news_returns
    (article_elements class_name date_tag date_class : option string)
    (s s' : state) (out : list article) :
  extract_news url keywords max_articles article_elements class_name title_tag
               description_tag date_tag date_class s
  = (inr out, s') ->
  exists resp ae cn dt,
    requests_get url = inr resp
    /\ article_elements = Some ae /\ class_name = Some cn /\ date_tag = Some dt
    /\ out = imap (record_at url description_tag
                             (default "" (PyStr.split "/" url !! 2%nat))
                             (unique_id_counter s) (clock s))
                  (qualifying_elements keywords cn title_tag
                     (PyList.slice_to (find_all (BeautifulSoup resp) ae) max_articles))
    /\ s' = after_records description_tag
              (qualifying_elements keywords cn title_tag
                 (PyList.slice_to (find_all (BeautifulSoup resp) ae) max_articles))
              (logged (EvGet url) s)
    /\ (out <> [] -> is_Some (PyStr.split "/" url !! 2%nat)).
Proof.
  intros Hrun. rewrite extract_news_unfold in Hrun.
  destruct (requests_get url) as [msg|resp]; [discriminate|].
  destruct article_elements as [ae|]; [|discriminate].
  destruct class_name as [cn|]; [|discriminate].
  destruct date_tag as [dt|]; [|discriminate].
  exists resp, ae, cn, dt. do 4 (split; [reflexivity|]).
  destruct (PyStr.split "/" url !! 2%nat) as [src|] eqn:Hsrc.
  - rewrite (loop_good_exact url keywords cn title_tag description_tag src _ Hsrc) in Hrun.
    injection Hrun as <- <-. simpl. split; [reflexivity|]. split; [reflexivity|]. eauto.
  - apply (loop_bad_returns url keywords cn title_tag description_tag _ _ _ _ _ Hsrc)
      in Hrun as (Hq & -> & ->).
    rewrite Hq, after_records_nil. simpl. split; [reflexivity|]. split; [reflexivity|].
    congruence.
Qed.

(** Why a run of extract_news that raises has raised, and what it has
    left. *)
Lemma extract_news_raises
    (article_elements class_name date_tag date_class : option string)
    (s s' : state) (e : exn) :
  extract_news url keywords max_articles article_elements class_name title_tag
               description_tag date_tag date_class s
  = (inl e, s') ->
  unique_id_counter s' = unique_id_counter s
  /\ collection s' = collection s
  /\ ((exists msg, requests_get url = inl msg /\ e = RequestException msg)
      \/ (e = ConfigurationError
          /\ (article_elements = None \/ class_name = None \/ date_tag = None))
      \/ (e = IndexError "list index out of range"
          /\ (PyStr.count "/" url < 2)%nat)).
Proof.
  intros Hrun. rewrite extract_news_unfold in Hrun.
  destruct (requests_get url) as [msg|resp].
  { injection Hrun as <- <-. split; [reflexivity|]. split; [reflexivity|]. left. eauto. }
  destruct article_elements as [ae|];
    [|injection Hrun as <- <-; split; [reflexivity|]; split; [reflexivity|]; right; left; auto].
  destruct class_name as [cn|];
    [|injection Hrun as <- <-; split; [reflexivity|]; split; [reflexivity|]; right; left; auto].
  destruct date_tag as [dt|];
    [|injection Hrun as <- <-; split; [reflexivity|]; split; [reflexivity|]; right; left; auto].
  destruct (PyStr.split "/" url !! 2%nat) as [src|] eqn:Hsrc.
  - rewrite (loop_good_exact url keywords cn title_tag description_tag src _ Hsrc) in Hrun.
    discriminate.
  - destruct (loop_bad url keywords cn title_tag description_tag
                (PyList.slice_to (find_all (BeautifulSoup resp) ae) max_articles)
                Hsrc [] (logged (EvGet url) s))
      as [[Hrun1 _] | (s1 & Hrun1 & Hc & Hcoll & _)]; rewrite Hrun1 in Hrun;
      [discriminate|].
    injection Hrun as <- <-. split; [exact Hc|]. split; [exact Hcoll|].
    right. right. split; [reflexivity|].
    destruct (le_lt_dec 2 (PyStr.count "/" url)) as [Hge|Hlt]; [|exact Hlt].
    apply split_third in Hge. rewrite Hsrc in Hge. destruct Hge as [x Hx]. discriminate.
Qed.

End ExtractNewsExact.

Lemma length_omap_le {A B} (f : A -> option B) (l : list A) :
  (length (omap f l) <= length l)%nat.
Proof.
  induction l as [|a l IH]; simpl; [lia|].
  change (list_omap A B f l) with (omap f l). destruct (f a); simpl; lia.
Qed.

Lemma length_slice_to {A} (l : list A) (n : Z) :
  (length (PyList.slice_to l n) <= length l)%nat
  /\ (0 <= n -> Z.of_nat (length (PyList.slice_to l n)) <= n)
  /\ (n < 0 -> Z.of_nat (length (PyList.slice_to l n)) = Z.max 0 (Z.of_nat (length l) + n)).
Proof.
  unfold PyList.slice_to. destruct (Z.leb_spec 0 n); rewrite length_take;
    repeat split; lia.
Qed.

Lemma filter_all {A} (P : A -> Prop) `{!forall x, Decision (P x)} (l : list A) :
  (forall x, x ∈ l -> P x) -> filter P l = l.
Proof.
  induction l as [|a l IH]; intros Hall; [reflexivity|].
  rewrite filter_cons_True by (apply Hall; left).
  f_equal. apply IH. intros x Hx. apply Hall. now right.
Qed.

(** X1: with the page fetched, the three mandatory fields given and a url
    of at least two slashes, extract_news returns one record for each
    qualifying element among the selected ones, in document order, with
    the element's stripped title, its category and its description. *)
Theorem records_follow_document_order `{Collaborators} (url : string)
    (keywords : list (string * list string)) (max_articles : Z)
    (article_elements class_name date_tag : string)
    (title_tag description_tag date_class : option string)
    (resp : response) (s : state) :
  requests_get url = inr resp ->
  (2 <= PyStr.count "/" url)%nat ->
  exists out s',
    extract_news url keywords max_articles (Some article_elements) (Some class_name)
                 title_tag description_tag (Some date_tag) date_class s
    = (inr out, s')
    /\ (Title <$> out, Category <$> out, Description <$> out)
       = ((fun q => fst (snd q)) <$>
            qualifying_elements keywords class_name title_tag
              (PyList.slice_to (find_all (BeautifulSoup resp) article_elements)
                               max_articles),
          (fun q => snd (snd q)) <$>
            qualifying_elements keywords class_name title_tag
              (PyList.slice_to (find_all (BeautifulSoup resp) article_elements)
                               max_articles),
          (fun q => description_of description_tag (fst q)) <$>
            qualifying_elements keywords class_name title_tag
              (PyList.slice_to (find_all (BeautifulSoup resp) article_elements)
                               max_articles)).
Proof.
  intros Hget Hurl. apply split_third in Hurl as [src Hsrc].
  rewrite (extract_news_fetched _ _ _ _ _ _ _ _ _ _ _ Hget).
  rewrite (loop_good_exact url keywords class_name title_tag description_tag src _ Hsrc).
  eexists. eexists. split; [reflexivity|]. simpl.
  rewrite !fmap_imap. f_equal; [f_equal|]; rewrite <- imap_const; apply imap_ext;
    intros i q _; reflexivity.
Qed.

(** X2: the ids of the records of one run of extract_news are the next
    values of the counter: they increase strictly along the result, lie
    above the counter the run started with and up to the counter it leaves,
    and are pairwise distinct. *)
Theorem extracted_ids_increase `{Collaborators} (url : string)
    (keywords : list (string * list string)) (max_articles : Z)
    (article_elements class_name title_tag description_tag date_tag date_class : option string)
    (s s' : state) (out : list article) :
  extract_news url keywords max_articles article_elements class_name title_tag
               description_tag date_tag date_class s
  = (inr out, s') ->
  unique_id_counter s' = unique_id_counter s + Z.of_nat (length out)
  /\ (forall (i j : nat) (r r' : article),
        out !! i = Some r -> out !! j = Some r' -> (i < j)%nat -> id r < id r')
  /\ (forall r, r ∈ out -> unique_id_counter s < id r <= unique_id_counter s')
  /\ NoDup (id <$> out).
Proof.
  intros Hrun.
  pose proof (extract_news_ids _ _ _ _ _ _ _ _ _ _ _ _ Hrun) as Hids.
  assert (Hc : unique_id_counter s' = unique_id_counter s + Z.of_nat (length out)).
  { destruct (extract_news_returns _ _ _ _ _ _ _ _ _ _ _ _ Hrun)
      as (resp & ae & cn & dt & _ & _ & _ & _ & -> & -> & _).
    rewrite length_imap. reflexivity. }
  split; [exact Hc|]. split; [|split].
  - intros i j r r' Hi Hj Hlt. rewrite (Hids i r Hi), (Hids j r' Hj). lia.
  - intros r Hr. apply list_elem_of_lookup in Hr as [i Hi].
    pose proof (lookup_lt_Some _ _ _ Hi). rewrite (Hids i r Hi). lia.
  - apply NoDup_alt. intros i j x Hi Hj.
    rewrite list_lookup_fmap in Hi, Hj.
    destruct (out !! i) as [r|] eqn:Hri; [|discriminate].
    destruct (out !! j) as [r'|] eqn:Hrj; [|discriminate].
    simpl in Hi, Hj. injection Hi as Hi. injection Hj as Hj.
    rewrite (Hids i r Hri) in Hi. rewrite (Hids j r' Hrj) in Hj. lia.
Qed.

Lemma qualifying_classify `{Collaborators} (keywords : list (string * list string))
    (class_name : string) (title_tag : option string) (a : tag)
    (title_text category : string) :
  qualifying keywords class_name title_tag a = Some (title_text, category) ->
  classify title_text keywords = Some category.
Proof.
  unfold qualifying. destruct (find a title_tag (Some class_name)); [|discriminate].
  simpl. destruct (classify _ keywords) eqn:Hc; [|discriminate].
  intros [= <- <-]. exact Hc.
Qed.

Lemma canonical_sentiment_range (label : string) :
  canonical_sentiment label ∈ ["positive"; "negative"; "neutral"].
Proof.
  unfold canonical_sentiment.
  destruct (String.eqb label "POSITIVE"); [left|].
  destruct (String.eqb label "NEGATIVE"); [right; left | right; right; left].
Qed.

(** X3: in every record extract_news returns, the source url is the url
    of the call and the source is its third slash-delimited segment; the
    category is the one the keyword map gives the title; the sentiment is
    the mapped label of the title, a space and the description, and is one
    of positive, negative and neutral. *)
Theorem record_fields_agree `{Collaborators} (url : string)
    (keywords : list (string * list string)) (max_articles : Z)
    (article_elements class_name title_tag description_tag date_tag date_class : option string)
    (s s' : state) (out : list article) (r : article) :
  extract_news url keywords max_articles article_elements class_name title_tag
               description_tag date_tag date_class s
  = (inr out, s') ->
  r ∈ out ->
  Source_URL r = url
  /\ PyStr.split "/" url !! 2%nat = Some (Source r)
  /\ classify (Title r) keywords = Some (Category r)
  /\ Sentiment r
     = canonical_sentiment (sentiment_label (Title r ++ " " ++ Description r))
  /\ Sentiment r ∈ ["positive"; "negative"; "neutral"].
Proof.
  intros Hrun Hr.
  destruct (extract_news_returns _ _ _ _ _ _ _ _ _ _ _ _ Hrun)
    as (resp & ae & cn & dt & _ & _ & _ & _ & Hout & _ & Hsrc).
  assert (Hne : out <> []) by (intros ->; inversion Hr).
  destruct (Hsrc Hne) as [src Hsrc']. rewrite Hsrc' in Hout. simpl in Hout.
  rewrite Hout in Hr. apply elem_of_lookup_imap in Hr as (i & q & -> & Hq).
  apply list_elem_of_lookup_2 in Hq. unfold qualifying_elements in Hq.
  apply list_elem_of_omap in Hq as (a & _ & Ha).
  destruct (qualifying keywords cn title_tag a) as [[t c]|] eqn:Hqa; [|discriminate].
  injection Ha as <-. simpl.
  split; [reflexivity|]. split; [exact Hsrc'|].
  split; [exact (qualifying_classify _ _ _ _ _ _ Hqa)|].
  split; [reflexivity | apply canonical_sentiment_range].
Qed.

(** X4: extract_news returns at most [max_articles] records when that cap
    is not negative, none when it is 0, and never more records than the
    page has elements of the article selector; with a negative cap the
    last elements of the page are left out. *)
Theorem extraction_is_capped `{Collaborators} (url : string)
    (keywords : list (string * list string)) (max_articles : Z)
    (article_elements class_name title_tag description_tag date_tag date_class : option string)
    (s s' : state) (out : list article) :
  extract_news url keywords max_articles article_elements class_name title_tag
               description_tag date_tag date_class s
  = (inr out, s') ->
  (0 <= max_articles -> Z.of_nat (length out) <= max_articles)
  /\ (max_articles = 0 -> out = [])
  /\ (forall resp ae,
        requests_get url = inr resp -> article_elements = Some ae ->
        (length out <= length (find_all (BeautifulSoup resp) ae))%nat
        /\ (max_articles < 0 ->
            Z.of_nat (length out)
            <= Z.max 0 (Z.of_nat (length (find_all (BeautifulSoup resp) ae))
                        + max_articles))).
Proof.
  intros Hrun.
  destruct (extract_news_returns _ _ _ _ _ _ _ _ _ _ _ _ Hrun)
    as (resp & ae & cn & dt & Hget & -> & _ & _ & Hout & _ & _).
  assert (Hlen : (length out
                  <= length (PyList.slice_to (find_all (BeautifulSoup resp) ae)
                                             max_articles))%nat).
  { rewrite Hout, length_imap. apply length_omap_le. }
  destruct (length_slice_to (find_all (BeautifulSoup resp) ae) max_articles)
    as (Hle & Hpos & Hneg).
  split; [intros Hmax; specialize (Hpos Hmax); lia|]. split.
  - intros ->. specialize (Hpos ltac:(lia)). destruct out; [reflexivity|simpl in *; lia].
  - intros resp' ae' Hget' [= <-]. rewrite Hget in Hget'. injection Hget' as <-.
    split; [lia|]. intros Hmax. specialize (Hneg Hmax). lia.
Qed.

(** X5: extract_news never writes the collection and never lowers the
    counter, whether it returns or raises; when the fetch fails it raises
    the error of the fetch whatever the configuration, and leaves the
    state as it was but for the request made. *)
Theorem extraction_leaves_store `{Collaborators} (url : string)
    (keywords : list (string * list string)) (max_articles : Z)
    (article_elements class_name title_tag description_tag date_tag date_class : option string)
    (s : state) :
  collection (snd (extract_news url keywords max_articles article_elements class_name
                                title_tag description_tag date_tag date_class s))
  = collection s
  /\ unique_id_counter s
     <= unique_id_counter
          (snd (extract_news url keywords max_articles article_elements class_name
                             title_tag description_tag date_tag date_class s))
  /\ (forall msg,
        requests_get url = inl msg ->
        extract_news url keywords max_articles article_elements class_name
                     title_tag description_tag date_tag date_class s
        = (inl (RequestException msg), logged (EvGet url) s)).
Proof.
  split; [|split].
  - destruct (extract_news _ _ _ _ _ _ _ _ _ s) as [[e|out] s'] eqn:Hrun; simpl.
    + apply extract_news_raises in Hrun. tauto.
    + destruct (extract_news_returns _ _ _ _ _ _ _ _ _ _ _ _ Hrun)
        as (resp & ae & cn & dt & _ & _ & _ & _ & _ & -> & _). reflexivity.
  - destruct (extract_news _ _ _ _ _ _ _ _ _ s) as [[e|out] s'] eqn:Hrun; simpl.
    + apply extract_news_raises in Hrun. lia.
    + destruct (extract_news_returns _ _ _ _ _ _ _ _ _ _ _ _ Hrun)
        as (resp & ae & cn & dt & _ & _ & _ & _ & _ & -> & _). simpl. lia.
  - intros msg Hget. rewrite extract_news_unfold, Hget. reflexivity.
Qed.

(** ** The source of a well-formed url *)

Lemma split_no_sep (sep : ascii) (a : string) :
  PyStr.count sep a = 0%nat -> PyStr.split sep a = [a].
Proof.
  induction a as [|c a IH]; simpl; [reflexivity|].
  destruct (Ascii.eqb c sep); [discriminate|]. simpl. intros Hc.
  now rewrite (IH Hc).
Qed.

Lemma split_app_sep (sep : ascii) (a b : string) :
  PyStr.count sep a = 0%nat ->
  PyStr.split sep (a ++ String sep b) = a :: PyStr.split sep b.
Proof.
  induction a as [|c a IH]; simpl.
  - intros _. now rewrite Ascii.eqb_refl.
  - destruct (Ascii.eqb c sep); [discriminate|]. simpl. intros Hc.
    now rewrite (IH Hc).
Qed.

Lemma string_app_nil_r (a : string) : a ++ "" = a.
Proof.
  induction a as [|c a IH]; [reflexivity|].
  change (String c (a ++ "") = String c a). now rewrite IH.
Qed.

Lemma split_scheme_host (scheme host rest : string) :
  PyStr.count "/" scheme = 0%nat ->
  PyStr.count "/" host = 0%nat ->
  rest = "" \/ (exists path, rest = String "/" path) ->
  PyStr.split "/" (scheme ++ "//" ++ host ++ rest) !! 2%nat = Some host.
Proof.
  intros Hs Hh Hrest.
  change (scheme ++ "//" ++ host ++ rest)
    with (scheme ++ String "/" (EmptyString ++ String "/" (host ++ rest))).
  rewrite (split_app_sep "/" scheme _ Hs), (split_app_sep "/" EmptyString _ eq_refl).
  destruct Hrest as [->|[path ->]].
  - rewrite string_app_nil_r, (split_no_sep _ _ Hh). reflexivity.
  - rewrite (split_app_sep "/" host path Hh). reflexivity.
Qed.

(** X6: for a url made of a scheme part and a host part without slash,
    joined by two slashes and followed by nothing or by a slash and a
    path, the source of every record extract_news returns is the host
    part. *)
Theorem source_is_host `{Collaborators} (scheme host rest : string)
    (keywords : list (string * list string)) (max_articles : Z)
    (article_elements class_name title_tag description_tag date_tag date_class : option string)
    (s s' : state) (out : list article) (r : article) :
  PyStr.count "/" scheme = 0%nat ->
  PyStr.count "/" host = 0%nat ->
  rest = "" \/ (exists path, rest = String "/" path) ->
  extract_news (scheme ++ "//" ++ host ++ rest) keywords max_articles article_elements
               class_name title_tag description_tag date_tag date_class s
  = (inr out, s') ->
  r ∈ out ->
  Source r = host.
Proof.
  intros Hs Hh Hrest Hrun Hr.
  destruct (extract_news_returns _ _ _ _ _ _ _ _ _ _ _ _ Hrun)
    as (resp & ae & cn & dt & _ & _ & _ & _ & Hout & _ & _).
  rewrite (split_scheme_host _ _ _ Hs Hh Hrest) in Hout. simpl in Hout.
  rewrite Hout in Hr. apply elem_of_lookup_imap in Hr as (i & q & -> & _).
  reflexivity.
Qed.

(** ** Ids and the store *)

Lemma after_save_covers (data : list article) (s : state) :
  counter_covers (after_save data s).
Proof.
  unfold counter_covers, after_save, counter_of. simpl.
  pose proof (max_id_doc_of_spec (collection s ++ new_articles_of data (collection s)))
    as Hmax.
  destruct (max_id_doc_of _) as [d|].
  - destruct Hmax as [_ Hle]. exact Hle.
  - rewrite Hmax. intros d Hd. inversion Hd.
Qed.

(** X7: save_to_mongo leaves the counter at or above every id of the
    collection; an extraction that starts in such a state returns only
    records whose ids the collection lacks, and a save of its result
    inserts them all. *)
Theorem covered_extraction_is_new `{Collaborators} :
  (forall (data : list article) (s : state),
      counter_covers (snd (save_to_mongo data s)))
  /\ (forall (url : string) (keywords : list (string * list string)) (max_articles : Z)
             (article_elements class_name title_tag description_tag date_tag
                date_class : option string)
             (s s' : state) (out : list article),
        counter_covers s ->
        extract_news url keywords max_articles article_elements class_name title_tag
                     description_tag date_tag date_class s
        = (inr out, s') ->
        new_articles_of out (collection s') = out
        /\ collection (snd (save_to_mongo out s')) = (collection s ++ out)%list).
Proof.
  split.
  - intros data s. rewrite save_to_mongo_unfold. apply after_save_covers.
  - intros url keywords max_articles ae cn tt dt dtag dcls s s' out Hcov Hrun.
    pose proof (extract_news_ids _ _ _ _ _ _ _ _ _ _ _ _ Hrun) as Hids.
    assert (Hcoll : collection s' = collection s).
    { destruct (extract_news_returns _ _ _ _ _ _ _ _ _ _ _ _ Hrun)
        as (resp & ae' & cn' & dt' & _ & _ & _ & _ & _ & -> & _). reflexivity. }
    assert (Hnew : new_articles_of out (collection s') = out).
    { rewrite new_articles_of_spec, Hcoll. apply filter_all. intros r Hr Hin.
      apply list_elem_of_lookup in Hr as [i Hi]. rewrite (Hids i r Hi) in Hin.
      apply list_elem_of_fmap in Hin as (d & Hd & Hdin).
      specialize (Hcov d Hdin). lia. }
    split; [exact Hnew|].
    rewrite save_to_mongo_unfold. simpl. now rewrite Hnew, Hcoll.
Qed.

(** ** More on classification *)

Lemma lower_ascii_idem (c : ascii) :
  PyStr.lower_ascii (PyStr.lower_ascii c) = PyStr.lower_ascii c.
Proof. destruct c as [[] [] [] [] [] [] [] []]; reflexivity. Qed.

Lemma lower_idem (s : string) : PyStr.lower (PyStr.lower s) = PyStr.lower s.
Proof.
  induction s as [|c s IH]; simpl; [reflexivity|].
  now rewrite lower_ascii_idem, IH.
Qed.

Lemma keyword_hit_lower (txt1 txt2 : string) (kws : list string) :
  PyStr.lower txt1 = PyStr.lower txt2 ->
  keyword_hit txt1 kws = keyword_hit txt2 kws.
Proof. unfold keyword_hit. now intros ->. Qed.

Lemma keyword_hit_lower_keywords (txt : string) (kws : list string) :
  keyword_hit txt (PyStr.lower <$> kws) = keyword_hit txt kws.
Proof.
  unfold keyword_hit. induction kws as [|kw kws IH]; [reflexivity|].
  simpl. rewrite lower_idem. f_equal. exact IH.
Qed.

Lemma classify_lower (txt1 txt2 : string) (keywords : list (string * list string)) :
  PyStr.lower txt1 = PyStr.lower txt2 ->
  classify txt1 keywords = classify txt2 keywords.
Proof.
  intros Hl. induction keywords as [|[c kws] rest IH]; [reflexivity|].
  simpl. rewrite (keyword_hit_lower _ _ kws Hl), IH. reflexivity.
Qed.

(** X8: classification does not depend on letter case: two titles with
    the same lower-case form get the same category, a title and its
    lower-case form in particular, and putting the keywords of the map in
    lower case changes no result. *)
Theorem classify_ignores_case (keywords : list (string * list string)) :
  (forall txt1 txt2,
      PyStr.lower txt1 = PyStr.lower txt2 ->
      classify txt1 keywords = classify txt2 keywords)
  /\ (forall txt, classify (PyStr.lower txt) keywords = classify txt keywords)
  /\ (forall txt,
        classify txt ((fun item : string * list string =>
                         (fst item, PyStr.lower <$> snd item)) <$> keywords)
        = classify txt keywords).
Proof.
  split; [|split].
  - intros txt1 txt2 Hl. now apply classify_lower.
  - intros txt. apply classify_lower, lower_idem.
  - intros txt. induction keywords as [|[c kws] rest IH]; [reflexivity|].
    simpl. rewrite keyword_hit_lower_keywords.
    destruct (keyword_hit txt kws); [reflexivity | exact IH].
Qed.

(** X9: a category with the empty string among its keywords matches
    every title, so with such a category in the map no title is left
    without category. *)
Theorem empty_keyword_matches_all (keywords : list (string * list string))
    (c : string) (kws : list string) (txt : string) :
  In (c, kws) keywords ->
  In "" kws ->
  keyword_hit txt kws = true /\ classify txt keywords <> None.
Proof.
  intros Hin Hkw.
  assert (Hhit : category_matches txt kws).
  { exists "". split; [exact Hkw|]. exists "", "", txt. split; reflexivity. }
  split; [now apply keyword_hit_spec|].
  intros Hnone. apply classify_None in Hnone.
  rewrite List.Forall_forall in Hnone. exact (Hnone _ Hin Hhit).
Qed.

(** X10: classifying against two maps put one after the other gives the
    category of the first map when it has one, and that of the second
    otherwise; categories added at the end never change the category of a
    title that had one. *)
Theorem classify_app (txt : string) (keywords more : list (string * list string)) :
  classify txt (keywords ++ more)%list
  = match classify txt keywords with
    | Some c => Some c
    | None => classify txt more
    end.
Proof.
  induction keywords as [|[c kws] rest IH]; [reflexivity|].
  simpl. destruct (keyword_hit txt kws); [reflexivity | exact IH].
Qed.

(** ** More on save_to_mongo *)

(** X11: save_to_mongo leaves the collection as it was if, and only if,
    every id of the batch is already in it; this is so for the empty batch,
    and then the only output is the line that nothing is new. *)
Theorem save_inserts_nothing_iff_known (data : list article) (s : state) :
  (collection (snd (save_to_mongo data s)) = collection s
   <-> forall a, a ∈ data -> id a ∈ (id <$> collection s))
  /\ ((forall a, a ∈ data -> id a ∈ (id <$> collection s)) ->
      trace (snd (save_to_mongo data s))
      = (trace s
         ++ [EvFind (id <$> data);
             EvPrint "No new articles to insert. All articles were already present.";
             EvFindOneMax])%list)
  /\ collection (snd (save_to_mongo [] s)) = collection s.
Proof.
  rewrite !save_to_mongo_unfold. unfold after_save, persist_events. simpl.
  assert (Hnone : (forall a, a ∈ data -> id a ∈ (id <$> collection s))
                  -> new_articles_of data (collection s) = []).
  { intros Hall. rewrite new_articles_of_spec. apply filter_none.
    intros a Ha Hnot. exact (Hnot (Hall a Ha)). }
  split; [split|split].
  - intros Heq a Ha.
    assert (Hnil : new_articles_of data (collection s) = []).
    { apply (app_inv_head (collection s)). now rewrite app_nil_r. }
    rewrite new_articles_of_spec in Hnil.
    destruct (decide (id a ∈ (id <$> collection s))) as [Hin|Hout]; [exact Hin|].
    exfalso. exact (filter_nil_not_elem_of _ _ a Hnil Hout Ha).
  - intros Hall. now rewrite (Hnone Hall), app_nil_r.
  - intros Hall. now rewrite (Hnone Hall).
  - apply app_nil_r.
Qed.

(** X13: when two batches share no id, saving the first and then the
    second leaves the collection and the counter that saving the two in
    one batch leaves. *)
Theorem save_batches_compose (data1 data2 : list article) (s : state) :
  (forall a b, a ∈ data1 -> b ∈ data2 -> id a <> id b) ->
  collection (snd (save_to_mongo data2 (snd (save_to_mongo data1 s))))
  = collection (snd (save_to_mongo (data1 ++ data2)%list s))
  /\ unique_id_counter (snd (save_to_mongo data2 (snd (save_to_mongo data1 s))))
     = unique_id_counter (snd (save_to_mongo (data1 ++ data2)%list s)).
Proof.
  intros Hdisj. rewrite !save_to_mongo_unfold. unfold after_save. simpl.
  assert (Hnew2 : new_articles_of data2 (collection s ++ new_articles_of data1 (collection s))
                  = new_articles_of data2 (collection s)).
  { rewrite !new_articles_of_spec. apply filter_iff_on. intros b Hb.
    rewrite fmap_app, elem_of_app. split; [tauto|].
    intros Hnot [Hin|Hin]; [contradiction|].
    apply list_elem_of_fmap in Hin as (a & Heq & Ha).
    apply list_elem_of_filter in Ha as [_ Ha].
    exact (Hdisj a b Ha Hb (eq_sym Heq)). }
  assert (Hnew : new_articles_of (data1 ++ data2) (collection s)
                 = (new_articles_of data1 (collection s)
                    ++ new_articles_of data2 (collection s))%list).
  { rewrite !new_articles_of_spec. apply filter_app. }
  rewrite Hnew2, Hnew, <- !app_assoc. split; reflexivity.
Qed.

(** ** The whole run *)

Section Run.

Context `{Collaborators}.

Variable keywords : list (string * list string).

Lemma extract_site_unfold (entry : site) (acc : list article) (s : state) :
  extract_site keywords entry acc s
  = match extract_news (site_url entry) keywords 100
            (site_article_elements entry) (site_class_name entry)
            (site_title_tag entry) (site_description_tag entry)
            (site_date_tag entry) (site_date_class entry) s with
    | (inl e, s1) => (inl e, s1)
    | (inr out, s1) =>
        (inr (acc ++ out)%list,
         logged (EvPrint ("Extracted " ++ PyStr.of_nat (length out)
                            ++ " articles from " ++ site_url entry ++ ".")) s1)
    end.
Proof.
  unfold extract_site, bind.
  destruct (extract_news _ _ _ _ _ _ _ _ _ s) as [[e|out] s1]; reflexivity.
Qed.

Lemma run_unfold (urls : list site) (s : state) :
  run keywords urls s
  = match for_each (extract_site keywords) urls [] s with
    | (inl e, s1) => (inl e, s1)
    | (inr all_articles, s1) =>
        (inr PyNone,
         logged (EvPrint ("Saved " ++ PyStr.of_nat (length all_articles)
                            ++ " articles to MongoDB."))
                (after_save all_articles s1))
    end.
Proof.
  unfold run, bind.
  change (for_each _ urls [] s) with (for_each (extract_site keywords) urls [] s).
  destruct (for_each (extract_site keywords) urls [] s) as [[e|all_articles] s1];
    [reflexivity|].
  rewrite save_to_mongo_unfold. reflexivity.
Qed.


(** The loop over the sites collects the records of the sites in order,
    with consecutive ids, and never writes the collection; when it raises,
    one of the sites has failed. *)
Lemma sites_loop (urls : list site) :
  forall (acc : list article) (s : state),
    match for_each (extract_site keywords) urls acc s with
    | (inr out, s') =>
        exists news,
          out = (acc ++ news)%list
          /\ collection s' = collection s
          /\ unique_id_counter s' = unique_id_counter s + Z.of_nat (length news)
          /\ (forall (i : nat) (r : article),
                news !! i = Some r -> id r = unique_id_counter s + Z.of_nat i + 1)
    | (inl e, s') =>
        collection s' = collection s
        /\ unique_id_counter s <= unique_id_counter s'
        /\ exists entry, entry ∈ urls /\ site_fails entry e
    end.
Proof.
  induction urls as [|entry urls' IH]; intros acc s.
  - simpl. exists []. rewrite app_nil_r. simpl.
    split; [reflexivity|]. split; [reflexivity|]. split; [lia|].
    intros i r Hi. discriminate.
  - rewrite for_each_cons, extract_site_unfold.
    destruct (extract_news _ _ _ _ _ _ _ _ _ s) as [[e|out1] s1] eqn:Hrun.
    + apply extract_news_raises in Hrun as (Hc & Hcoll & Hwhy).
      split; [exact Hcoll|]. split; [lia|]. exists entry. split; [left | exact Hwhy].
    + pose proof (extract_news_ids _ _ _ _ _ _ _ _ _ _ _ _ Hrun) as Hids.
      assert (Hsum : unique_id_counter s1
                     = unique_id_counter s + Z.of_nat (length out1)
                     /\ collection s1 = collection s).
      { destruct (extract_news_returns _ _ _ _ _ _ _ _ _ _ _ _ Hrun)
          as (resp & ae & cn & dt & _ & _ & _ & _ & -> & -> & _).
        rewrite length_imap. split; reflexivity. }
      destruct Hsum as [Hc1 Hcoll1].
      specialize (IH (acc ++ out1)%list
                     (logged (EvPrint ("Extracted " ++ PyStr.of_nat (length out1)
                                         ++ " articles from " ++ site_url entry ++ "."))
                             s1)).
      destruct (for_each (extract_site keywords) urls' _ _) as [[e|out] s'].
      * destruct IH as (Hcoll & Hc & entry' & Hin & Hwhy). simpl in Hcoll, Hc.
        split; [congruence|]. split; [lia|]. exists entry'. split; [now right | exact Hwhy].
      * destruct IH as (news & -> & Hcoll & Hc & Hrec). simpl in Hcoll, Hc, Hrec.
        exists (out1 ++ news)%list. rewrite length_app, app_assoc.
        split; [reflexivity|]. split; [congruence|]. split; [lia|].
        intros i r Hi. destruct (decide (i < length out1)%nat) as [Hlt|Hge].
        -- rewrite lookup_app_l in Hi by exact Hlt. exact (Hids i r Hi).
        -- rewrite lookup_app_r in Hi by lia. rewrite (Hrec _ r Hi). lia.
Qed.

End Run.

Lemma main_urls_well_configured : Forall well_configured main_urls.
Proof.
  repeat constructor; simpl; try (eexists; reflexivity); vm_compute; lia.
Qed.


(** X18: a run of extract_news that returns has made one request, and
    for each record returned, in order, one reading of the clock and one
    call of the sentiment pipeline on the title, a space and the
    description; it has done nothing else. *)
Theorem effects_per_record `{Collaborators} (url : string)
    (keywords : list (string * list string)) (max_articles : Z)
    (article_elements class_name title_tag description_tag date_tag date_class : option string)
    (s s' : state) (out : list article) :
  extract_news url keywords max_articles article_elements class_name title_tag
               description_tag date_tag date_class s
  = (inr out, s') ->
  trace s'
  = (trace s
     ++ EvGet url
     :: concat ((fun r => [EvNow; EvSentiment (Title r ++ " " ++ Description r)])
                  <$> out))%list
  /\ clock s' = (clock s + length out)%nat.
Proof.
  intros Hrun.
  destruct (extract_news_returns _ _ _ _ _ _ _ _ _ _ _ _ Hrun)
    as (resp & ae & cn & dt & _ & _ & _ & _ & -> & -> & _).
  rewrite length_imap. split; [|reflexivity]. simpl.
  rewrite <- app_assoc. simpl. do 3 f_equal.
  rewrite fmap_imap, <- imap_const. apply imap_ext. intros i q _. reflexivity.
Qed.

(** ** Concrete runs of the further properties *)

(** The statement of X1 on the extraction of [Toy.page1]. *)
Lemma records_follow_document_order_witness :
  exists out s',
    Toy.extract1 "https://news.example/latest" (Some "article") (Some "t") (Some "time")
                 (process_start [])
    = (inr out, s')
    /\ Title <$> out = ["Bitcoin hits new high"; "ethereum upgrade"]
    /\ Category <$> out = ["BTC"; "ETH"]
    /\ Description <$> out = ["Analysts react"; ""].
Proof.
  assert (Hurl : (2 <= PyStr.count "/" "https://news.example/latest")%nat)
    by (vm_compute; lia).
  destruct (@records_follow_document_order Toy.world1 "https://news.example/latest"
              Toy.kw1 100 "article" "t" "time" (Some "h4") (Some "p") None Toy.page1
              (process_start []) eq_refl Hurl) as (out & s' & Hrun & Heq).
  exists out, s'. split; [exact Hrun|].
  injection Heq as -> -> ->. repeat split.
Defined.

(** The statement of X2 on the extraction of [Toy.page1]. *)
Lemma extracted_ids_increase_witness :
  Toy.extract1 "https://news.example/latest" (Some "article") (Some "t") (Some "time")
               (process_start [])
  = (inr Toy.out1, Toy.after1)
  /\ NoDup (id <$> Toy.out1)
  /\ (forall r, r ∈ Toy.out1 -> 0 < id r <= 2).
Proof.
  assert (Hrun : Toy.extract1 "https://news.example/latest" (Some "article") (Some "t")
                              (Some "time") (process_start [])
                 = (inr Toy.out1, Toy.after1))
    by (vm_compute; reflexivity).
  split; [exact Hrun|].
  destruct (@extracted_ids_increase Toy.world1 "https://news.example/latest" Toy.kw1 100
              (Some "article") (Some "t") (Some "h4") (Some "p") (Some "time") None
              (process_start []) Toy.after1 Toy.out1 Hrun) as (_ & _ & Hbound & Hnd).
  split; [exact Hnd | exact Hbound].
Defined.

(** The statement of X3 on the second record of the extraction of
    [Toy.page1]. *)
Lemma record_fields_agree_witness :
  Toy.extract1 "https://news.example/latest" (Some "article") (Some "t") (Some "time")
               (process_start [])
  = (inr Toy.out1, Toy.after1)
  /\ Toy.eth_record ∈ Toy.out1
  /\ PyStr.split "/" "https://news.example/latest" !! 2%nat
     = Some (Source Toy.eth_record)
  /\ classify (Title Toy.eth_record) Toy.kw1 = Some (Category Toy.eth_record).
Proof.
  assert (Hrun : Toy.extract1 "https://news.example/latest" (Some "article") (Some "t")
                              (Some "time") (process_start [])
                 = (inr Toy.out1, Toy.after1))
    by (vm_compute; reflexivity).
  assert (Hin : Toy.eth_record ∈ Toy.out1) by (right; left).
  split; [exact Hrun|]. split; [exact Hin|].
  destruct (@record_fields_agree Toy.world1 "https://news.example/latest" Toy.kw1 100
              (Some "article") (Some "t") (Some "h4") (Some "p") (Some "time") None
              (process_start []) Toy.after1 Toy.out1 Toy.eth_record Hrun Hin)
    as (_ & Hsrc & Hcat & _).
  split; [exact Hsrc | exact Hcat].
Defined.

(** The statement of X4 on the extraction of [Toy.page1] with a cap of
    one article. *)
Lemma extraction_is_capped_witness :
  exists out s',
    @extract_news Toy.world1 "https://news.example/latest" Toy.kw1 1
                  (Some "article") (Some "t") (Some "h4") (Some "p") (Some "time") None
                  (process_start [])
    = (inr out, s')
    /\ Z.of_nat (length out) <= 1.
Proof.
  eexists. eexists. split; [vm_compute; reflexivity|].
  refine (proj1 (@extraction_is_capped Toy.world1 "https://news.example/latest" Toy.kw1 1
                   (Some "article") (Some "t") (Some "h4") (Some "p") (Some "time") None
                   (process_start []) _ _ _) _).
  - vm_compute. reflexivity.
  - lia.
Defined.

(** The statement of X6 on the second record of the extraction of
    [Toy.page1]. *)
Lemma source_is_host_witness :
  PyStr.count "/" "https:" = 0%nat
  /\ PyStr.count "/" "news.example" = 0%nat
  /\ Toy.eth_record ∈ Toy.out1
  /\ Source Toy.eth_record = "news.example".
Proof.
  split; [reflexivity|]. split; [reflexivity|].
  assert (Hin : Toy.eth_record ∈ Toy.out1) by (right; left).
  split; [exact Hin|].
  apply (@source_is_host Toy.world1 "https:" "news.example" "/latest" Toy.kw1 100
           (Some "article") (Some "t") (Some "h4") (Some "p") (Some "time") None
           (process_start []) Toy.after1 Toy.out1 Toy.eth_record).
  - reflexivity.
  - reflexivity.
  - right. exists "latest". reflexivity.
  - vm_compute. reflexivity.
  - exact Hin.
Defined.

(** The statement of X9 on a map whose only category has the empty
    keyword. *)
Lemma empty_keyword_matches_all_witness :
  In ("ANY", [""]) [("ANY", [""])]
  /\ In "" [""]
  /\ classify "Local weather update" [("ANY", [""])] <> None.
Proof.
  assert (Hin : In ("ANY", [""]) [("ANY", [""])]) by (left; reflexivity).
  assert (Hkw : In "" [""]) by (left; reflexivity).
  split; [exact Hin|]. split; [exact Hkw|].
  exact (proj2 (empty_keyword_matches_all [("ANY", [""])] "ANY" [""]
                  "Local weather update" Hin Hkw)).
Defined.

(** The statement of X13 on two batches of one record each. *)
Lemma save_batches_compose_witness :
  collection (snd (save_to_mongo [Toy.old_article 2 "Bitcoin recovers"]
                     (snd (save_to_mongo [Toy.old_article 1 "Bitcoin slips"]
                             (process_start [])))))
  = collection (snd (save_to_mongo Toy.old_store (process_start []))).
Proof.
  apply (save_batches_compose [Toy.old_article 1 "Bitcoin slips"]
           [Toy.old_article 2 "Bitcoin recovers"] (process_start [])).
  intros a b Ha Hb.
  apply list_elem_of_singleton in Ha. apply list_elem_of_singleton in Hb.
  subst a b. simpl. lia.
Defined.


(** The statement of X18 on the extraction of [Toy.page1]. *)
Lemma effects_per_record_witness :
  Toy.extract1 "https://news.example/latest" (Some "article") (Some "t") (Some "time")
               (process_start [])
  = (inr Toy.out1, Toy.after1)
  /\ trace Toy.after1
     = [ EvGet "https://news.example/latest";
         EvNow; EvSentiment "Bitcoin hits new high Analysts react";
         EvNow; EvSentiment "ethereum upgrade " ]
  /\ clock Toy.after1 = 2%nat.
Proof.
  assert (Hrun : Toy.extract1 "https://news.example/latest" (Some "article") (Some "t")
                              (Some "time") (process_start [])
                 = (inr Toy.out1, Toy.after1))
    by (vm_compute; reflexivity).
  split; [exact Hrun|].
  exact (@effects_per_record Toy.world1 "https://news.example/latest" Toy.kw1 100
           (Some "article") (Some "t") (Some "h4") (Some "p") (Some "time") None
           (process_start []) Toy.after1 Toy.out1 Hrun).
Defined.

(** ** The description default on a fetched page *)

(** C8: on a page that was fetched, every selected element with a matched
    title whose category matches but with no element matching the
    description selector still yields a record, and the description of
    that record is the empty string.  The url of a fetched page has at
    least two slashes, which is what the fetch of the requests library
    gives. *)
Theorem missing_description_yields_empty `{Collaborators} (url : string)
    (keywords : list (string * list string)) (max_articles : Z)
    (article_elements class_name date_tag : string)
    (title_tag description_tag date_class : option string)
    (resp : response) (article_el title_element : tag) (category : string) (s : state) :
  fetch_needs_two_slashes ->
  requests_get url = inr resp ->
  article_el ∈ PyList.slice_to (find_all (BeautifulSoup resp) article_elements)
                               max_articles ->
  find article_el title_tag (Some class_name) = Some title_element ->
  classify (PyStr.strip (text title_element)) keywords = Some category ->
  find article_el description_tag None = None ->
  (forall (articles : list article) (s0 : state),
      exists r s',
        process_article url keywords class_name title_tag description_tag
                        article_el articles s0
        = (inr (articles ++ [r])%list, s')
        /\ Description r = ""
        /\ Title r = PyStr.strip (text title_element)
        /\ Category r = category)
  /\ (exists out s' r,
        extract_news url keywords max_articles (Some article_elements)
                     (Some class_name) title_tag description_tag (Some date_tag)
                     date_class s
        = (inr out, s')
        /\ r ∈ out
        /\ Description r = ""
        /\ Title r = PyStr.strip (text title_element)
        /\ Category r = category).
Proof.
  intros Hfetch Hget Hin Hfind Hclass Hdesc.
  pose proof (Hfetch url resp Hget) as Hurl.
  destruct (missing_description_defaults url keywords max_articles title_tag
              description_tag class_name article_el title_element category
              Hfind Hclass Hdesc Hurl) as [Hstep Hrun].
  split; [exact Hstep|].
  exact (Hrun resp article_elements date_tag date_class s Hget Hin).
Qed.

(** The statement of C8 on the last element of [Toy.page1], fetched from
    a web that answers for urls with a scheme only. *)
Lemma missing_description_yields_empty_witness :
  exists out s' r,
    @extract_news Toy.world2 "https://news.example/latest" Toy.kw1 100
                  (Some "article") (Some "t") (Some "h4") (Some "p") (Some "time") None
                  (process_start [])
    = (inr out, s')
    /\ r ∈ out
    /\ Description r = ""
    /\ Title r = "ethereum upgrade"
    /\ Category r = "ETH".
Proof.
  assert (Hfetch : @fetch_needs_two_slashes Toy.world2).
  { intros url resp. simpl. unfold Toy.web2.
    destruct (String.eqb_spec url "https://news.example/latest") as [->|_];
      [intros _; vm_compute; lia | discriminate]. }
  assert (Hin : Toy.eth_fragment
                ∈ PyList.slice_to
                    (@find_all Toy.world2 (@BeautifulSoup Toy.world2 Toy.page1) "article")
                    100)
    by (vm_compute; do 3 right; left).
  exact (proj2 (@missing_description_yields_empty Toy.world2
                  "https://news.example/latest" Toy.kw1 100 "article" "t" "time"
                  (Some "h4") (Some "p") None Toy.page1 Toy.eth_fragment
                  (Toy.Leaf (Toy.h4 "t" "ethereum upgrade")) "ETH" (process_start [])
                  Hfetch eq_refl Hin eq_refl eq_refl eq_refl)).
Defined.

(** ** Distinct ids in the store *)

(** X12: for a batch whose ids are pairwise distinct, save_to_mongo
    neither creates nor removes a duplicate id: the ids of the collection
    are pairwise distinct after the save exactly when they were before. *)
Theorem save_keeps_ids_distinct (data : list article) (s : state) :
  NoDup (id <$> data) ->
  NoDup (id <$> collection (snd (save_to_mongo data s)))
  <-> NoDup (id <$> collection s).
Proof.
  intros Hdata. rewrite save_to_mongo_unfold. unfold after_save. cbn [snd collection].
  rewrite fmap_app, NoDup_app. split.
  - intros (Hcoll & _). exact Hcoll.
  - intros Hcoll. split; [exact Hcoll|]. split.
    + intros x Hx Hnew. rewrite new_articles_of_spec in Hnew.
      apply list_elem_of_fmap in Hnew as (a & -> & Ha).
      apply list_elem_of_filter in Ha as [Hnot _]. contradiction.
    + apply (sublist_NoDup _ (id <$> data)); [exact Hdata|].
      rewrite new_articles_of_spec. apply fmap_sublist, sublist_filter.
Qed.

(** The statement of X12 on the first save of [Toy.old_store]. *)
Lemma save_keeps_ids_distinct_witness :
  NoDup (id <$> Toy.old_store)
  /\ NoDup (id <$> collection (snd (save_to_mongo Toy.old_store (process_start [])))).
Proof.
  assert (Hdata : NoDup (id <$> Toy.old_store)).
  { simpl. apply NoDup_cons. split; [|apply NoDup_singleton].
    intros Hin. apply list_elem_of_singleton in Hin. discriminate. }
  split; [exact Hdata|].
  apply (save_keeps_ids_distinct Toy.old_store (process_start []) Hdata).
  simpl. constructor.
Defined.

(** ** A failing site *)

Lemma no_store_access_refl (s : state) : no_store_access s s.
Proof.
  split; [reflexivity|]. exists []. rewrite app_nil_r. split; [reflexivity | constructor].
Qed.

Lemma no_store_access_trans (s1 s2 s3 : state) :
  no_store_access s1 s2 -> no_store_access s2 s3 -> no_store_access s1 s3.
Proof.
  intros (Hc12 & evs12 & Ht12 & Hf12) (Hc23 & evs23 & Ht23 & Hf23).
  split; [congruence|]. exists (evs12 ++ evs23)%list.
  rewrite Ht23, Ht12, app_assoc. split; [reflexivity|].
  apply Forall_app. split; assumption.
Qed.

Lemma no_store_access_events (s : state) (evs : list event) :
  Forall (fun ev => store_event ev = false) evs ->
  no_store_access s {| unique_id_counter := unique_id_counter s;
                       collection := collection s;
                       clock := clock s;
                       trace := (trace s ++ evs)%list |}.
Proof. intros Hevs. split; [reflexivity|]. exists evs. split; [reflexivity | exact Hevs]. Qed.

Lemma no_store_access_logged (ev : event) (s : state) :
  store_event ev = false -> no_store_access s (logged ev s).
Proof.
  intros Hev. split; [reflexivity|]. exists [ev].
  split; [reflexivity | now constructor].
Qed.

Section NoStoreAccess.

Context `{Collaborators}.

Lemma for_each_no_store_access {A B} (body : A -> B -> M B) :
  (forall x acc s, no_store_access s (snd (body x acc s))) ->
  forall l acc s, no_store_access s (snd (for_each body l acc s)).
Proof.
  intros Hbody. induction l as [|x l IH]; intros acc s.
  - apply no_store_access_refl.
  - rewrite for_each_cons. specialize (Hbody x acc s).
    destruct (body x acc s) as [[e|acc'] s1]; simpl in *; [exact Hbody|].
    exact (no_store_access_trans _ _ _ Hbody (IH acc' s1)).
Qed.

Lemma process_article_no_store_access (url : string)
    (keywords : list (string * list string)) (class_name : string)
    (title_tag description_tag : option string) (a : tag) (acc : list article)
    (s : state) :
  no_store_access s (snd (process_article url keywords class_name title_tag
                                          description_tag a acc s)).
Proof.
  destruct (qualifying keywords class_name title_tag a) as [[title_text category]|] eqn:Hq.
  - destruct (PyStr.split "/" url !! 2%nat) as [src|] eqn:Hsrc.
    + rewrite (process_article_emit _ _ _ _ _ _ _ _ _ _ _ Hq Hsrc). simpl.
      split; [reflexivity|]. eexists. split; [reflexivity|]. repeat constructor.
    + rewrite (process_article_fail _ _ _ _ _ _ _ _ _ _ Hq Hsrc). simpl.
      split; [reflexivity|]. eexists. split; [reflexivity|]. repeat constructor.
  - rewrite (process_article_skip _ _ _ _ _ _ _ _ Hq). apply no_store_access_refl.
Qed.

Lemma extract_news_no_store_access (url : string)
    (keywords : list (string * list string)) (max_articles : Z)
    (article_elements class_name title_tag description_tag date_tag date_class : option string)
    (s : state) :
  no_store_access s (snd (extract_news url keywords max_articles article_elements
                                       class_name title_tag description_tag date_tag
                                       date_class s)).
Proof.
  rewrite extract_news_unfold.
  assert (Hget : no_store_access s (logged (EvGet url) s))
    by (now apply no_store_access_logged).
  destruct (requests_get url) as [msg|resp]; [exact Hget|].
  destruct article_elements as [ae|]; [|exact Hget].
  destruct class_name as [cn|]; [|exact Hget].
  destruct date_tag as [dt|]; [|exact Hget].
  apply (no_store_access_trans _ _ _ Hget).
  apply for_each_no_store_access. intros a acc s0.
  apply process_article_no_store_access.
Qed.

Lemma extract_site_no_store_access (keywords : list (string * list string))
    (entry : site) (acc : list article) (s : state) :
  no_store_access s (snd (extract_site keywords entry acc s)).
Proof.
  rewrite extract_site_unfold.
  pose proof (extract_news_no_store_access (site_url entry) keywords 100
                (site_article_elements entry) (site_class_name entry)
                (site_title_tag entry) (site_description_tag entry)
                (site_date_tag entry) (site_date_class entry) s) as Hnews.
  destruct (extract_news _ _ _ _ _ _ _ _ _ s) as [[e|out] s1]; simpl in *; [exact Hnews|].
  apply (no_store_access_trans _ _ _ Hnews). now apply no_store_access_logged.
Qed.

(** The extraction of a site that is certain to fail raises in every
    state. *)
Lemma certain_to_fail_raises (keywords : list (string * list string)) (entry : site)
    (s : state) :
  certain_to_fail entry ->
  exists e s',
    extract_news (site_url entry) keywords 100
                 (site_article_elements entry) (site_class_name entry)
                 (site_title_tag entry) (site_description_tag entry)
                 (site_date_tag entry) (site_date_class entry) s
    = (inl e, s').
Proof.
  intros Hfail. rewrite extract_news_unfold.
  destruct (requests_get (site_url entry)) as [msg|resp] eqn:Hget; [eauto|].
  destruct Hfail as [[msg Hmsg] | [Hae | [Hcn | Hdt]]].
  - rewrite Hget in Hmsg. discriminate.
  - rewrite Hae. eauto.
  - rewrite Hcn. destruct (site_article_elements entry); eauto.
  - rewrite Hdt. destruct (site_article_elements entry); [|eauto].
    destruct (site_class_name entry); eauto.
Qed.

(** The loop over the sites raises when one of them is certain to fail. *)
Lemma sites_loop_raises (keywords : list (string * list string)) (urls : list site)
    (entry : site) :
  entry ∈ urls ->
  certain_to_fail entry ->
  forall (acc : list article) (s : state),
  exists e s', for_each (extract_site keywords) urls acc s = (inl e, s').
Proof.
  intros Hin Hfail. induction urls as [|a urls' IH]; [inversion Hin|].
  intros acc s. rewrite for_each_cons.
  apply elem_of_cons in Hin as [<-|Hin].
  - rewrite extract_site_unfold.
    destruct (certain_to_fail_raises keywords entry s Hfail) as (e & s' & ->). eauto.
  - destruct (extract_site keywords a acc s) as [[e|acc'] s1]; [eauto|].
    exact (IH Hin acc' s1).
Qed.

End NoStoreAccess.

(** X14: when the fetch of one of the sites fails, or one of the sites has
    a mandatory field unset, the run raises before save_to_mongo is
    reached: the collection is left as it was and no operation on the
    store is made, so the records extracted from the sites before are not
    persisted. *)
Theorem failing_site_aborts_run `{Collaborators} (keywords : list (string * list string))
    (urls : list site) (entry : site) (s : state) :
  entry ∈ urls ->
  certain_to_fail entry ->
  exists e s',
    run keywords urls s = (inl e, s')
    /\ collection s' = collection s
    /\ exists evs,
         trace s' = (trace s ++ evs)%list
         /\ Forall (fun ev => store_event ev = false) evs.
Proof.
  intros Hin Hfail. rewrite run_unfold.
  destruct (sites_loop_raises keywords urls entry Hin Hfail [] s) as (e & s' & Hloop).
  pose proof (for_each_no_store_access (extract_site keywords)
                (extract_site_no_store_access keywords) urls [] s) as Hno.
  rewrite Hloop in *. simpl in Hno. exists e, s'. split; [reflexivity | exact Hno].
Qed.

(** The statement of X14 on a run over a site that answers and one that
    does not, in a process restarted over [Toy.old_store]. *)
Lemma failing_site_aborts_run_witness :
  exists e s',
    @run Toy.world1 Toy.kw1 [Toy.site1; Toy.site_down] (process_start Toy.old_store)
    = (inl e, s')
    /\ collection s' = Toy.old_store
    /\ exists evs,
         trace s' = ([] ++ evs)%list
         /\ Forall (fun ev => store_event ev = false) evs.
Proof.
  apply (@failing_site_aborts_run Toy.world1 Toy.kw1 [Toy.site1; Toy.site_down]
           Toy.site_down (process_start Toy.old_store)).
  - right. left.
  - left. exists "connection refused". reflexivity.
Defined.

(** X15: over sites that all have the three mandatory fields and a url
    of at least two slashes, a run never raises the configuration error of
    line 38 nor the index error of line 57; the three sites of the script
    are such sites. *)
Theorem well_configured_run_never_misconfigured `{Collaborators} :
  (forall (keywords : list (string * list string)) (urls : list site) (s : state),
      Forall well_configured urls ->
      fst (run keywords urls s) <> inl ConfigurationError
      /\ fst (run keywords urls s) <> inl (IndexError "list index out of range"))
  /\ Forall well_configured main_urls
  /\ (forall s : state,
        fst (main s) <> inl ConfigurationError
        /\ fst (main s) <> inl (IndexError "list index out of range")).
Proof.
  assert (Hgen : forall (keywords : list (string * list string)) (urls : list site)
                        (s : state),
             Forall well_configured urls ->
             fst (run keywords urls s) <> inl ConfigurationError
             /\ fst (run keywords urls s) <> inl (IndexError "list index out of range")).
  { intros keywords urls s Hwell. rewrite run_unfold.
    pose proof (sites_loop keywords urls [] s) as Hloop.
    destruct (for_each (extract_site keywords) urls [] s) as [[e|all_articles] s1];
      simpl; [|split; discriminate].
    destruct Hloop as (_ & _ & entry & Hin & Hwhy).
    rewrite Forall_forall in Hwell. destruct (Hwell entry Hin) as (Hae & Hcn & Hdt & Hurl).
    destruct Hwhy as [(msg & _ & ->) | [[_ Hunset] | [_ Hshort]]].
    - split; discriminate.
    - destruct Hae as [? Hae], Hcn as [? Hcn], Hdt as [? Hdt].
      destruct Hunset as [?|[?|?]]; congruence.
    - lia. }
  split; [exact Hgen|]. split; [exact main_urls_well_configured|].
  intros s. exact (Hgen _ _ s main_urls_well_configured).
Qed.
